(** * Fuchsia build helpers: binary size differ and test runner

    A shallow embedding of [fuchsia/binary_size_differ.py] and
    [fuchsia/test_runner.py].  Python integers are [Z], Python strings are
    [string] (the characters of the text, one [ascii] per code unit), a
    [dict] is an association list in insertion order, and code that may
    raise lives in an error monad. *)

From Stdlib Require Import ZArith List Bool Lia.
From Stdlib Require Import Ascii String DecimalString.
Import ListNotations.

Open Scope string_scope.
Open Scope Z_scope.

(** ** Python primitives *)

Module Py.

(** Exceptions that the modelled code raises or lets through. *)
Inductive exn : Type :=
| AssertionError (before_keys after_keys : list string)
| KeyError (key : string)
| Exception (msg : string)
| OtherError (cls msg : string).

(** The result of running code that may raise. *)
Inductive outcome (A : Type) : Type :=
| Ok (a : A)
| Raise (e : exn).
Arguments Ok {A} a.
Arguments Raise {A} e.

Definition bind {A B} (m : outcome A) (k : A -> outcome B) : outcome B :=
  match m with
  | Ok a => k a
  | Raise e => Raise e
  end.

(** ['%d' % n] for an integer [n]. *)
Definition format_d (n : Z) : string := NilZero.string_of_int (Z.to_int n).

Definition newline : ascii := ascii_of_nat 10.
Definition nl : string := String newline "".

(** [s.replace(old, new)]: every non-overlapping occurrence of [old], found
    from the left, is replaced by [new].  [skip] counts the characters of an
    occurrence already replaced that are still to be dropped. *)
Fixpoint replace_from (old new s : string) (skip : nat) : string :=
  match s with
  | "" => ""
  | String c s' =>
      match skip with
      | S k => replace_from old new s' k
      | O =>
          if prefix old s
          then new ++ replace_from old new s' (String.length old - 1)
          else String c (replace_from old new s' 0)
      end
  end.

(** An empty [old] matches before every character and at the end. *)
Fixpoint intersperse (new s : string) : string :=
  match s with
  | "" => new
  | String c s' => new ++ String c (intersperse new s')
  end.

Definition replace (old new s : string) : string :=
  match old with
  | "" => intersperse new s
  | _ => replace_from old new s 0
  end.

(** [s.replace(c, new)] for a one-character [c], character by character. *)
Fixpoint replace_char (c : ascii) (new s : string) : string :=
  match s with
  | "" => ""
  | String x s' =>
      (if Ascii.eqb x c then new else String x "") ++ replace_char c new s'
  end.

(** [sub in s] *)
Fixpoint contains (sub s : string) : bool :=
  prefix sub s ||
  match s with
  | "" => false
  | String _ s' => contains sub s'
  end.

(** Truth value of an optional integer, string or list ([None], [0], [''] and
    [[]] are false). *)
Definition truthy_int (o : option Z) : bool :=
  match o with
  | Some n => negb (n =? 0)
  | None => false
  end.

Definition truthy_str (o : option string) : bool :=
  match o with
  | Some s => negb (s =? "")%string
  | None => false
  end.

Definition truthy_list {A} (o : option (list A)) : bool :=
  match o with
  | Some (_ :: _) => true
  | _ => false
  end.

(** *** Dictionaries, in insertion order *)

Definition dict (V : Type) : Type := list (string * V).

Fixpoint dict_get {V} (k : string) (d : dict V) : option V :=
  match d with
  | [] => None
  | (k', v) :: d' => if (k' =? k)%string then Some v else dict_get k d'
  end.

(** [d[k]], raising [KeyError] for a missing key. *)
Definition dict_item {V} (d : dict V) (k : string) : outcome V :=
  match dict_get k d with
  | Some v => Ok v
  | None => Raise (KeyError k)
  end.

(** [d[k] = v]: an existing key keeps its position, a new key goes last. *)
Fixpoint dict_set {V} (k : string) (v : V) (d : dict V) : dict V :=
  match d with
  | [] => [(k, v)]
  | (k', v') :: d' =>
      if (k' =? k)%string then (k', v) :: d' else (k', v') :: dict_set k v d'
  end.

Definition dict_keys {V} (d : dict V) : list string := map fst d.

Definition mem (k : string) (l : list string) : bool :=
  existsb (fun k' => (k' =? k)%string) l.

(** [a.keys() == b.keys()]: key views compare as sets. *)
Definition keys_eq (a b : list string) : bool :=
  forallb (fun k => mem k b) a && forallb (fun k => mem k a) b.

End Py.

Import Py.

Notation "x <- m ;; k" := (Py.bind m (fun x => k))
  (at level 61, m at next level, right associativity).

(** ** binary_size_differ.py *)

Module BinarySizeDiffer.

(** Modelled from the spec: the record [PackageSizes] of the module
    [binary_sizes], which is imported and not part of the sources; the data
    model gives a snapshot entry a compressed and an uncompressed size, both
    integers. *)
Record PackageSizes : Type := {
  compressed : Z;
  uncompressed : Z
}.

(** The dictionary returned by [ComputePackageDiffs], one field per key. *)
Record Growth : Type := {
  growth_compressed : dict Z;
  growth_uncompressed : dict Z;
  growth_status_code : Z;
  growth_summary : string;
  growth_archive_filenames : list string;
  growth_links : list string
}.

Definition _MAX_DELTA_BYTES : Z := 12 * 1024.

Definition _TRYBOT_DOC : string :=
  "https://chromium.googlesource.com/chromium/src/+/main/docs/speed/binary_size/fuchsia_binary_size_trybot.md".

Definition HEADER : string :=
  "Size check failed! The following package(s) are affected:" ++ nl.

(** ['- %s grew by %d bytes\n' % (package_name, delta)] *)
Definition grew_line (package_name : string) (delta : Z) : string :=
  "- " ++ package_name ++ " grew by " ++ format_d delta ++ " bytes" ++ nl.

(** ['\nSee the following document for more information about'
     ' this trybot:\n%s' % _TRYBOT_DOC] *)
Definition trailer : string :=
  nl ++ "See the following document for more information about this trybot:"
     ++ nl ++ _TRYBOT_DOC.

(** The variables that the [for] loop updates. *)
Record LoopState : Type := {
  ls_compressed : dict Z;
  ls_uncompressed : dict Z;
  ls_status_code : Z;
  ls_summary : string
}.

Definition loop_init : LoopState :=
  {| ls_compressed := []; ls_uncompressed := [];
     ls_status_code := 0; ls_summary := "" |}.

(** One iteration of the loop, for [package_name]. *)
Definition loop_body (before_sizes after_sizes : dict PackageSizes)
    (st : LoopState) (package_name : string) : outcome LoopState :=
  a <- dict_item after_sizes package_name ;;
  b <- dict_item before_sizes package_name ;;
  let growth_c :=
    dict_set package_name (compressed a - compressed b) (ls_compressed st) in
  a' <- dict_item after_sizes package_name ;;
  b' <- dict_item before_sizes package_name ;;
  let growth_u :=
    dict_set package_name (uncompressed a' - uncompressed b')
      (ls_uncompressed st) in
  delta <- dict_item growth_c package_name ;;
  if delta >=? _MAX_DELTA_BYTES then
    let summary :=
      if (ls_status_code st =? 1) && (ls_summary st =? "")%string
      then HEADER else ls_summary st in
    delta' <- dict_item growth_c package_name ;;
    Ok {| ls_compressed := growth_c; ls_uncompressed := growth_u;
          ls_status_code := 1;
          ls_summary := summary ++ grew_line package_name delta' |}
  else
    Ok {| ls_compressed := growth_c; ls_uncompressed := growth_u;
          ls_status_code := ls_status_code st;
          ls_summary := ls_summary st |}.

(** [for package_name in before_sizes: ...] over the keys still to visit. *)
Fixpoint loop (before_sizes after_sizes : dict PackageSizes)
    (names : list string) (st : LoopState) : outcome LoopState :=
  match names with
  | [] => Ok st
  | package_name :: names' =>
      st' <- loop_body before_sizes after_sizes st package_name ;;
      loop before_sizes after_sizes names' st'
  end.

(** The body of [ComputePackageDiffs] once both files have been read. *)
Definition compute_diffs (before_sizes after_sizes : dict PackageSizes)
    : outcome Growth :=
  if keys_eq (dict_keys before_sizes) (dict_keys after_sizes) then
    st <- loop before_sizes after_sizes (dict_keys before_sizes) loop_init ;;
    let summary := ls_summary st ++ trailer in
    Ok {| growth_compressed := ls_compressed st;
          growth_uncompressed := ls_uncompressed st;
          growth_status_code := ls_status_code st;
          growth_summary := replace nl "<br>" summary;
          growth_archive_filenames := [];
          growth_links := [] |}
  else
    Raise (AssertionError (dict_keys before_sizes) (dict_keys after_sizes)).

Section Reader.

(** [ReadPackageSizesJson] of the module [binary_sizes] is imported and not
    part of the sources: it reads a sizes file into a dictionary from
    package name to [PackageSizes], or raises. *)
Variable ReadPackageSizesJson : string -> outcome (dict PackageSizes).

Definition ComputePackageDiffs (before_sizes_file after_sizes_file : string)
    : outcome Growth :=
  before_sizes <- ReadPackageSizesJson before_sizes_file ;;
  after_sizes <- ReadPackageSizesJson after_sizes_file ;;
  compute_diffs before_sizes after_sizes.

End Reader.

(** *** The command line tool *)

(** The parsed command line; the paths have been through
    [os.path.realpath]. *)
Record Args : Type := {
  before_dir : string;
  after_dir : string;
  results_path : string;
  verbose : bool
}.

(** What is written to one of the standard streams. *)
Inductive output : Type :=
| Text (line : string)
| ExnStr (e : exn)
| Traceback (e : exn).

(** The state of a results file opened with mode ['wt']. *)
Inductive file_content : Type :=
| Truncated
| Dumped (g : Growth).

Record World : Type := {
  stdout : list output;
  stderr : list output;
  files : list (string * file_content)
}.

Definition print (line : output) (w : World) : World :=
  {| stdout := stdout w ++ [line]; stderr := stderr w; files := files w |}.

(** [traceback.print_tb] writes to [sys.stderr] when no file is given. *)
Definition print_tb (e : exn) (w : World) : World :=
  {| stdout := stdout w; stderr := stderr w ++ [Traceback e];
     files := files w |}.

(** The files written so far, the latest state of a path first. *)
Definition store (path : string) (c : file_content) (w : World) : World :=
  {| stdout := stdout w; stderr := stderr w;
     files := (path, c) :: files w |}.

(** [s] between double quotes, as in the messages of [main]. *)
Definition quoted (s : string) : string :=
  String (ascii_of_nat 34) (s ++ String (ascii_of_nat 34) EmptyString).

Definition sep : ascii := "/"%char.

Fixpoint endswith_sep (s : string) : bool :=
  match s with
  | "" => false
  | String c "" => Ascii.eqb c sep
  | String _ s' => endswith_sep s'
  end.

(** One step of [os.path.join] on a POSIX host. *)
Definition join2 (path b : string) : string :=
  if prefix (String sep "") b then b
  else if (path =? "")%string || endswith_sep path then path ++ b
  else path ++ String sep b.

Definition path_join (a : string) (p : list string) : string :=
  fold_left join2 p a.

Section Main.

Variable ReadPackageSizesJson : string -> outcome (dict PackageSizes).

(** [PACKAGES_SIZES_FILE] is imported from [binary_sizes]. *)
Variable PACKAGES_SIZES_FILE : string.

(** The host: the working directory, which paths are directories and files,
    and whether opening the results file or dumping into it raises. *)
Variable getcwd : string.
Variable isdir : string -> bool.
Variable isfile : string -> bool.
Variable open_raises : string -> option exn.
Variable dump_raises : Growth -> option exn.

(** [if args.verbose: ...]; [vars(args)] lists the options in the order in
    which they were declared, and [verbose] is [True] here. *)
Definition echo_args (args : Args) (w : World) : World :=
  let w := print (Text "Fuchsia binary sizes") w in
  let w := print (Text ("Working directory " ++ getcwd)) w in
  let w := print (Text "Args:") w in
  let w := print (Text ("  before_dir: " ++ before_dir args)) w in
  let w := print (Text ("  after_dir: " ++ after_dir args)) w in
  let w := print (Text ("  results_path: " ++ results_path args)) w in
  print (Text "  verbose: True") w.

Definition before_sizes_file (args : Args) : string :=
  path_join (before_dir args) ["sizes"; PACKAGES_SIZES_FILE].

Definition after_sizes_file (args : Args) : string :=
  path_join (after_dir args) ["sizes"; PACKAGES_SIZES_FILE].

(** The result of the [try] block: the flag [test_completed], the exception
    that left the block if one did, and the world. *)
Record TryResult : Type := {
  test_completed : bool;
  raised : option exn;
  world_after : World
}.

Definition try_block (args : Args) (w : World) : TryResult :=
  match ComputePackageDiffs ReadPackageSizesJson
          (before_sizes_file args) (after_sizes_file args) with
  | Raise e =>
      {| test_completed := false; raised := Some e; world_after := w |}
  | Ok growth =>
      (* test_completed = True *)
      match open_raises (results_path args) with
      | Some e =>
          {| test_completed := true; raised := Some e; world_after := w |}
      | None =>
          let w := store (results_path args) Truncated w in
          match dump_raises growth with
          | Some e =>
              {| test_completed := true; raised := Some e;
                 world_after := w |}
          | None =>
              {| test_completed := true; raised := None;
                 world_after := store (results_path args) (Dumped growth) w |}
          end
      end
  end.

(** The bare [except:] clause. *)
Definition except_block (r : TryResult) : World :=
  match raised r with
  | Some value => print (ExnStr value) (print_tb value (world_after r))
  | None => world_after r
  end.

(** [main] returns an exit code, or raises when an input is missing. *)
Definition main (args : Args) (w : World) : outcome Z * World :=
  let w := if verbose args then echo_args args w else w in
  if negb (isdir (before_dir args)) || negb (isdir (after_dir args)) then
    (Raise (Exception ("Could not find build output directory "
                         ++ quoted (before_dir args) ++ " or "
                         ++ quoted (after_dir args) ++ ".")), w)
  else if negb (isfile (before_sizes_file args)) then
    (Raise (Exception ("Could not find before sizes file: "
                         ++ quoted (before_sizes_file args))), w)
  else if negb (isfile (after_sizes_file args)) then
    (Raise (Exception ("Could not find after sizes file: "
                         ++ quoted (after_sizes_file args))), w)
  else
    let r := try_block args w in
    let w := except_block r in
    (* finally: return 0 if test_completed else 1 *)
    (Ok (if test_completed r then 0 else 1), w).

End Main.

Definition sizes (c u : Z) : PackageSizes :=
  {| compressed := c; uncompressed := u |}.

(** *** What the report is compared with *)

(** The compressed and the uncompressed growth of a package that both
    snapshots hold: after minus before. *)
Definition compressed_delta (before_sizes after_sizes : dict PackageSizes)
    (package_name : string) : option Z :=
  match dict_get package_name after_sizes,
        dict_get package_name before_sizes with
  | Some a, Some b => Some (compressed a - compressed b)
  | _, _ => None
  end.

Definition uncompressed_delta (before_sizes after_sizes : dict PackageSizes)
    (package_name : string) : option Z :=
  match dict_get package_name after_sizes,
        dict_get package_name before_sizes with
  | Some a, Some b => Some (uncompressed a - uncompressed b)
  | _, _ => None
  end.

(** The packages among [names] whose compressed growth reaches the
    threshold, in order, each with its growth. *)
Fixpoint failing (before_sizes after_sizes : dict PackageSizes)
    (names : list string) : list (string * Z) :=
  match names with
  | [] => []
  | p :: names' =>
      match compressed_delta before_sizes after_sizes p with
      | Some d =>
          if d >=? _MAX_DELTA_BYTES
          then (p, d) :: failing before_sizes after_sizes names'
          else failing before_sizes after_sizes names'
      | None => failing before_sizes after_sizes names'
      end
  end.

(** One [grew_line] per entry. *)
Fixpoint lines_text (l : list (string * Z)) : string :=
  match l with
  | [] => ""
  | (p, d) :: l' => grew_line p d ++ lines_text l'
  end.

(** Status and summary go together: no failure and no text yet, or a
    failure and some text. *)
Definition sound (st : LoopState) : Prop :=
  (ls_status_code st = 0 /\ ls_summary st = "")
  \/ (ls_status_code st = 1 /\ ls_summary st <> "").

(** The entries of a snapshot without their uncompressed sizes. *)
Definition compressed_view (d : dict PackageSizes) : dict Z :=
  map (fun kv => (fst kv, compressed (snd kv))) d.

(** The report that [compute_diffs] builds from the final loop state. *)
Definition report (st : LoopState) : Growth :=
  {| growth_compressed := ls_compressed st;
     growth_uncompressed := ls_uncompressed st;
     growth_status_code := ls_status_code st;
     growth_summary := replace nl "<br>" (ls_summary st ++ trailer);
     growth_archive_filenames := [];
     growth_links := [] |}.

(** Two snapshots hold the same package names. *)
Definition same_packages (before_sizes after_sizes : dict PackageSizes)
    : Prop :=
  forall k, In k (dict_keys before_sizes) <-> In k (dict_keys after_sizes).

(** *** Sample snapshots and hosts *)

(** A reader that knows two files. *)
Definition sample_reader (before_sizes after_sizes : dict PackageSizes)
    (file : string) : outcome (dict PackageSizes) :=
  if (file =? "before.json")%string then Ok before_sizes
  else if (file =? "after.json")%string then Ok after_sizes
  else Raise (OtherError "FileNotFoundError" file).

Definition one_before : dict PackageSizes := [("pkgA", sizes 1000 2000)].
Definition one_grown : dict PackageSizes := [("pkgA", sizes 13288 2000)].
Definition one_below : dict PackageSizes := [("pkgA", sizes 13287 90000)].
Definition two_before : dict PackageSizes :=
  [("pkgA", sizes 100 200); ("pkgB", sizes 300 400)].
Definition two_grown : dict PackageSizes :=
  [("pkgB", sizes 20300 400); ("pkgA", sizes 12388 200)].
Definition other_after : dict PackageSizes := [("pkgC", sizes 1 2)].

Definition sample_args : Args :=
  {| before_dir := "/b"; after_dir := "/a"; results_path := "/r.json";
     verbose := false |}.

Definition empty_world : World :=
  {| stdout := []; stderr := []; files := [] |}.

(** A host on which both builds are found; the files are read as
    [one_before] and [one_grown]. *)
Definition host_reader (file : string) : outcome (dict PackageSizes) :=
  if (file =? "/b/sizes/package_sizes.json")%string then Ok one_before
  else if (file =? "/a/sizes/package_sizes.json")%string then Ok one_grown
  else Raise (OtherError "FileNotFoundError" file).

Definition always (b : bool) (path : string) : bool := b.

(** The results file cannot be opened. *)
Definition open_denied (path : string) : option exn :=
  Some (OtherError "PermissionError" path).

Definition open_fine (path : string) : option exn := None.
Definition dump_fine (g : Growth) : option exn := None.

(** [main] on the sample host, with the given behaviour of [open]. *)
Definition sample_main (open_raises : string -> option exn)
    : outcome Z * World :=
  main host_reader "package_sizes.json" "/src" (always true) (always true)
    open_raises dump_fine sample_args empty_world.



(** The summary of a run in which no package fails. *)
Definition passing_summary : string :=
  "<br>See the following document for more information about this trybot:<br>"
    ++ _TRYBOT_DOC.

(** A loop state in which a package has failed already. *)
Definition failed_state : LoopState :=
  {| ls_compressed := []; ls_uncompressed := []; ls_status_code := 1;
     ls_summary := grew_line "pkgZ" 20000 |}.

Definition two_same : dict PackageSizes :=
  [("pkgB", sizes 300 400); ("pkgA", sizes 100 200)].

End BinarySizeDiffer.

(** ** test_runner.py *)

Module TestRunner.

Definition DEFAULT_TEST_CONCURRENCY : Z := 4.
Definition TEST_RESULT_PATH : string := "/data/test_summary.json".
Definition TEST_FILTER_PATH : string := "/data/test_filter.txt".

Section Runner.

(** [package], an option that [AddCommonArgs] declares, is only handed on to
    [RunPackage]. *)
Context {package_t : Type}.

(** The parsed command line.  An option without a default is [None] when it
    is absent; the last four fields are declared by [AddCommonArgs], which is
    imported from [common_args]. *)
Record Args : Type := {
  gtest_filter : option string;
  gtest_repeat : option string;
  qemu_img_retries : Z;
  test_launcher_retry_limit : option string;
  gtest_break_on_failure : bool;
  single_process_tests : bool;
  test_launcher_batch_limit : option Z;
  test_launcher_filter_file : option string;
  test_launcher_jobs : option Z;
  test_launcher_summary_output : option string;
  enable_test_server : bool;
  test_launcher_bot_mode : bool;
  child_arg : option (list string);
  child_args : list string;
  output_directory : string;
  package : package_t;
  package_name : string;
  target_cpu : string
}.

(** [l.append(x)] and [l.extend(l')] *)
Definition list_append (l : list string) (x : string) : list string :=
  (l ++ [x])%list.

Definition list_extend (l l' : list string) : list string := (l ++ l')%list.

Definition unwrap_int (o : option Z) : Z :=
  match o with Some n => n | None => 0 end.

Definition unwrap_str (o : option string) : string :=
  match o with Some s => s | None => "" end.

Definition unwrap_list (o : option (list string)) : list string :=
  match o with Some l => l | None => [] end.

(** [args.test_launcher_jobs if args.test_launcher_jobs
     else DEFAULT_TEST_CONCURRENCY] *)
Definition test_concurrency (args : Args) : Z :=
  if truthy_int (test_launcher_jobs args)
  then unwrap_int (test_launcher_jobs args)
  else DEFAULT_TEST_CONCURRENCY.

(** The list [child_args] as it stands before the deployment target is
    created, one [let] per statement that appends to it. *)
Definition build_child_args (args : Args) : list string :=
  let child := ["--test-launcher-retry-limit=0"] in
  let child :=
    if single_process_tests args
    then list_append child "--single-process-tests" else child in
  let child :=
    if test_launcher_bot_mode args
    then list_append child "--test-launcher-bot-mode" else child in
  let child :=
    if truthy_int (test_launcher_batch_limit args)
    then list_append child
           ("--test-launcher-batch-limit="
              ++ format_d (unwrap_int (test_launcher_batch_limit args)))
    else child in
  let child :=
    list_append child
      ("--test-launcher-jobs=" ++ format_d (test_concurrency args)) in
  let child :=
    if truthy_str (gtest_filter args)
    then list_append child ("--gtest_filter=" ++ unwrap_str (gtest_filter args))
    else child in
  let child :=
    if truthy_str (gtest_repeat args)
    then list_append
           (list_append child
              ("--gtest_repeat=" ++ unwrap_str (gtest_repeat args)))
           "--test-launcher-timeout=-1"
    else child in
  let child :=
    if truthy_str (test_launcher_retry_limit args)
    then list_append child
           ("--test-launcher-retry-limit="
              ++ unwrap_str (test_launcher_retry_limit args))
    else child in
  let child :=
    if gtest_break_on_failure args
    then list_append child "--gtest_break_on_failure" else child in
  let child :=
    if truthy_str (test_launcher_summary_output args)
    then list_append child ("--test-launcher-summary-output=" ++ TEST_RESULT_PATH)
    else child in
  let child :=
    if truthy_list (child_arg args)
    then list_extend child (unwrap_list (child_arg args)) else child in
  let child :=
    match child_args args with
    | [] => child
    | _ => list_extend child (child_args args)
    end in
  child.

(** [args.test_launcher_bot_mode and args.target_cpu == 'x64'] *)
Definition require_kvm (args : Args) : bool :=
  test_launcher_bot_mode args && (target_cpu args =? "x64")%string.

(** *** The collaborators

    Deployment, file transfer, the test server and the package runner are
    imported.  Each one acts on a world of type [world] and returns or
    raises. *)
Variable world : Type.

Definition M (A : Type) : Type := world -> outcome A * world.

Definition ret {A} (a : A) : M A := fun w => (Ok a, w).

Definition mbind {A B} (m : M A) (k : A -> M B) : M B :=
  fun w =>
    match m w with
    | (Ok a, w') => k a w'
    | (Raise e, w') => (Raise e, w')
    end.

Variable manager target server run_package_args : Type.

Variable ConfigureLogging : Args -> M unit.
Variable GetDeploymentTargetForArgs : Args -> bool -> M manager.
(** [__enter__] and [__exit__] of the deployment target; [__exit__] gets the
    exception that left the block, if one did, and answers whether to
    suppress it. *)
Variable enter : manager -> M target.
Variable exit : manager -> option exn -> M bool.
Variable Start : target -> M unit.
Variable PutFile : target -> string -> string -> string -> M unit.
Variable GetFile : target -> string -> string -> string -> M unit.
(** [SetupTestServer] returns the server object; [None] stands for a result
    that is false as a condition. *)
Variable SetupTestServer : target -> Z -> string -> M (option server).
Variable Stop : server -> M unit.
Variable FromCommonArgs : Args -> M run_package_args.
Variable RunPackage :
  string -> target -> package_t -> string -> list string ->
  run_package_args -> M Z.

Local Notation "x <~ m ;; k" := (mbind m (fun x => k))
  (at level 61, m at next level, right associativity).

(** [child_args] as [RunPackage] receives it. *)
Definition run_child_args (args : Args) : list string :=
  if truthy_str (test_launcher_filter_file args)
  then list_append (build_child_args args)
         ("--test-launcher-filter-file=" ++ TEST_FILTER_PATH)
  else build_child_args args.

(** The block under [with ... as target:], which ends in
    [return returncode]. *)
Definition with_body (args : Args) (tgt : target) : M Z :=
  _ <~ Start tgt ;;
  _ <~ (if truthy_str (test_launcher_filter_file args)
        then PutFile tgt (unwrap_str (test_launcher_filter_file args))
               TEST_FILTER_PATH (package_name args)
        else ret tt) ;;
  test_server <~ (if enable_test_server args
                  then SetupTestServer tgt (test_concurrency args)
                         (package_name args)
                  else ret None) ;;
  rpa <~ FromCommonArgs args ;;
  returncode <~ RunPackage (output_directory args) tgt (package args)
                  (package_name args) (run_child_args args) rpa ;;
  _ <~ match test_server with
       | Some srv => Stop srv
       | None => ret tt
       end ;;
  _ <~ (if truthy_str (test_launcher_summary_output args)
        then GetFile tgt TEST_RESULT_PATH
               (unwrap_str (test_launcher_summary_output args))
               (package_name args)
        else ret tt) ;;
  ret returncode.

(** [main] returns [Some returncode], or [None] when it runs off its end
    because [__exit__] suppressed an exception. *)
Definition main (args : Args) : M (option Z) :=
  _ <~ ConfigureLogging args ;;
  mgr <~ GetDeploymentTargetForArgs args (require_kvm args) ;;
  tgt <~ enter mgr ;;
  fun w =>
    match with_body args tgt w with
    | (Ok returncode, w') =>
        match exit mgr None w' with
        | (Ok _, w'') => (Ok (Some returncode), w'')
        | (Raise e, w'') => (Raise e, w'')
        end
    | (Raise e, w') =>
        match exit mgr (Some e) w' with
        | (Ok true, w'') => (Ok None, w'')
        | (Ok false, w'') => (Raise e, w'')
        | (Raise e', w'') => (Raise e', w'')
        end
    end.

(** [RunPackage] with its exit code sent through [f], to compare [main]
    with. *)
Definition remapped (f : Z -> Z) :
    string -> target -> package_t -> string -> list string ->
    run_package_args -> M Z :=
  fun a t p n c r w =>
    match RunPackage a t p n c r w with
    | (Ok rc, w') => (Ok (f rc), w')
    | (Raise e, w') => (Raise e, w')
    end.

End Runner.

(** A list that starts with [x] and holds [y] further on. *)
Definition starts_then (x y : string) (l : list string) : Prop :=
  exists pre post, l = x :: (pre ++ y :: post)%list.

(** *** Sample command lines and collaborators *)

(** No option given. *)
Definition no_options : @Args unit :=
  {| gtest_filter := None; gtest_repeat := None; qemu_img_retries := 0;
     test_launcher_retry_limit := None; gtest_break_on_failure := false;
     single_process_tests := false; test_launcher_batch_limit := None;
     test_launcher_filter_file := None; test_launcher_jobs := None;
     test_launcher_summary_output := None; enable_test_server := false;
     test_launcher_bot_mode := false; child_arg := None; child_args := [];
     output_directory := "out"; package := tt; package_name := "pkg";
     target_cpu := "x64" |}.

(** [--test-launcher-retry-limit=] with the given value and nothing else. *)
Definition with_retry_limit (v : string) : @Args unit :=
  {| gtest_filter := None; gtest_repeat := None; qemu_img_retries := 0;
     test_launcher_retry_limit := Some v; gtest_break_on_failure := false;
     single_process_tests := false; test_launcher_batch_limit := None;
     test_launcher_filter_file := None; test_launcher_jobs := None;
     test_launcher_summary_output := None; enable_test_server := false;
     test_launcher_bot_mode := false; child_arg := None; child_args := [];
     output_directory := "out"; package := tt; package_name := "pkg";
     target_cpu := "x64" |}.

(** [--test-launcher-jobs] with the given value, a summary output, a filter
    file and the test server. *)
Definition with_jobs (n : Z) : @Args unit :=
  {| gtest_filter := None; gtest_repeat := None; qemu_img_retries := 0;
     test_launcher_retry_limit := None; gtest_break_on_failure := false;
     single_process_tests := false; test_launcher_batch_limit := None;
     test_launcher_filter_file := Some "filter.txt";
     test_launcher_jobs := Some n;
     test_launcher_summary_output := Some "summary.json";
     enable_test_server := true;
     test_launcher_bot_mode := false; child_arg := None; child_args := [];
     output_directory := "out"; package := tt; package_name := "pkg";
     target_cpu := "x64" |}.

(** Collaborators that log their calls and never raise; the package exits
    with [code]. *)
Definition logged {A} (call : string) (a : A) : M (list string) A :=
  fun w => (Ok a, (w ++ [call])%list).

Definition sample_main (code : Z) (args : @Args unit)
    : M (list string) (option Z) :=
  main (list string) unit unit unit unit
    (fun _ => logged "ConfigureLogging" tt)
    (fun _ _ => logged "GetDeploymentTargetForArgs" tt)
    (fun _ => logged "__enter__" tt)
    (fun _ _ => logged "__exit__" false)
    (fun _ => logged "Start" tt)
    (fun _ _ _ _ => logged "PutFile" tt)
    (fun _ _ _ _ => logged "GetFile" tt)
    (fun _ _ _ => logged "SetupTestServer" (Some tt))
    (fun _ => logged "Stop" tt)
    (fun _ => logged "FromCommonArgs" tt)
    (fun _ _ _ _ _ _ => logged "RunPackage" code)
    args.

(** *** What the child arguments are compared with *)

(** The command line without [--child-arg] and without positional child
    arguments. *)
Definition without_child_args {package_t} (args : @Args package_t)
    : @Args package_t :=
  {| gtest_filter := gtest_filter args;
     gtest_repeat := gtest_repeat args;
     qemu_img_retries := qemu_img_retries args;
     test_launcher_retry_limit := test_launcher_retry_limit args;
     gtest_break_on_failure := gtest_break_on_failure args;
     single_process_tests := single_process_tests args;
     test_launcher_batch_limit := test_launcher_batch_limit args;
     test_launcher_filter_file := test_launcher_filter_file args;
     test_launcher_jobs := test_launcher_jobs args;
     test_launcher_summary_output := test_launcher_summary_output args;
     enable_test_server := enable_test_server args;
     test_launcher_bot_mode := test_launcher_bot_mode args;
     child_arg := None; child_args := [];
     output_directory := output_directory args;
     package := package args;
     package_name := package_name args;
     target_cpu := target_cpu args |}.

(** [l] when [c] holds, nothing otherwise. *)
Definition opt (c : bool) (l : list string) : list string :=
  if c then l else [].

(** The arguments that the options of the runner itself give rise to, in
    the order of the statements that append them. *)
Definition generated_args {package_t} (args : @Args package_t)
    : list string :=
  (["--test-launcher-retry-limit=0"]
   ++ opt (single_process_tests args) ["--single-process-tests"]
   ++ opt (test_launcher_bot_mode args) ["--test-launcher-bot-mode"]
   ++ opt (truthy_int (test_launcher_batch_limit args))
        [("--test-launcher-batch-limit="
            ++ format_d (unwrap_int (test_launcher_batch_limit args)))%string]
   ++ [("--test-launcher-jobs=" ++ format_d (test_concurrency args))%string]
   ++ opt (truthy_str (gtest_filter args))
        [("--gtest_filter=" ++ unwrap_str (gtest_filter args))%string]
   ++ opt (truthy_str (gtest_repeat args))
        [("--gtest_repeat=" ++ unwrap_str (gtest_repeat args))%string;
         "--test-launcher-timeout=-1"]
   ++ opt (truthy_str (test_launcher_retry_limit args))
        [("--test-launcher-retry-limit="
            ++ unwrap_str (test_launcher_retry_limit args))%string]
   ++ opt (gtest_break_on_failure args) ["--gtest_break_on_failure"]
   ++ opt (truthy_str (test_launcher_summary_output args))
        [("--test-launcher-summary-output=" ++ TEST_RESULT_PATH)%string])%list.

(** *** Collaborators that record their calls *)

(** A collaborator that appends its name to the list of calls, then raises
    when [fails] says so and returns [a] otherwise. *)
Definition traced (fails : string -> bool) {A} (call : string) (a : A)
    : M (list string) A :=
  fun w =>
    if fails call
    then (Raise (OtherError "RuntimeError" call), (w ++ [call])%list)
    else (Ok a, (w ++ [call])%list).

(** [main] over such collaborators: [__exit__] answers [suppress] and the
    package exits with [code]. *)
Definition traced_main {package_t} (fails : string -> bool)
    (suppress : bool) (code : Z) (args : @Args package_t)
    : M (list string) (option Z) :=
  main (list string) unit unit unit unit
    (fun _ => traced fails "ConfigureLogging" tt)
    (fun _ _ => traced fails "GetDeploymentTargetForArgs" tt)
    (fun _ => traced fails "__enter__" tt)
    (fun _ _ => traced fails "__exit__" suppress)
    (fun _ => traced fails "Start" tt)
    (fun _ _ _ _ => traced fails "PutFile" tt)
    (fun _ _ _ _ => traced fails "GetFile" tt)
    (fun _ _ _ => traced fails "SetupTestServer" (Some tt))
    (fun _ => traced fails "Stop" tt)
    (fun _ => traced fails "FromCommonArgs" tt)
    (fun _ _ _ _ _ _ => traced fails "RunPackage" code)
    args.

(** The calls up to the first call of [x], and the calls after it. *)
Fixpoint calls_before (x : string) (l : list string) : list string :=
  match l with
  | [] => []
  | y :: l' => if (y =? x)%string then [] else y :: calls_before x l'
  end.

Fixpoint calls_after (x : string) (l : list string) : list string :=
  match l with
  | [] => []
  | y :: l' => if (y =? x)%string then l' else calls_after x l'
  end.

(** Nothing fails, and only the named call fails. *)
Definition none_fails (call : string) : bool := false.

Definition only_fails (name call : string) : bool := (call =? name)%string.

(** How many of the arguments start with [pre]. *)
Definition count_with_prefix (pre : string) (l : list string) : nat :=
  List.length (filter (prefix pre) l).

End TestRunner.

(** * Properties *)

Import BinarySizeDiffer.

(** ** Strings *)

Lemma append_assoc (a b c : string) : (a ++ b) ++ c = a ++ (b ++ c).
Proof.
  induction a as [|x a IH]; simpl; [reflexivity|]. now rewrite IH.
Qed.

Lemma append_nil_r (a : string) : a ++ "" = a.
Proof.
  induction a as [|x a IH]; simpl; [reflexivity|]. now rewrite IH.
Qed.

Lemma append_eq_nil (a b : string) : a ++ b = "" -> a = "" /\ b = "".
Proof.
  destruct a; simpl; [auto|discriminate].
Qed.

Lemma chars_app (a b : string) :
  list_ascii_of_string (a ++ b)
  = (list_ascii_of_string a ++ list_ascii_of_string b)%list.
Proof.
  induction a as [|x a IH]; simpl; [reflexivity|]. now rewrite IH.
Qed.

Lemma prefix_app (sub post : string) : prefix sub (sub ++ post) = true.
Proof.
  induction sub as [|x sub IH]; simpl.
  - now destruct post.
  - destruct (ascii_dec x x); [assumption|congruence].
Qed.

Lemma contains_intro (sub pre post : string) :
  contains sub (pre ++ sub ++ post) = true.
Proof.
  induction pre as [|x pre IH].
  - pose proof (prefix_app sub post) as H. cbn [append].
    destruct (sub ++ post); cbn [contains]; now rewrite H.
  - cbn [append contains]. rewrite IH. apply orb_true_r.
Qed.

(** Replacing a single character works character by character. *)
Lemma replace_from_char (c : ascii) (new s : string) :
  replace_from (String c "") new s 0 = replace_char c new s.
Proof.
  induction s as [|x s IH]; [reflexivity|].
  cbn [replace_from replace_char prefix String.length Nat.sub].
  destruct (ascii_dec c x) as [->|Hne].
  - rewrite Ascii.eqb_refl.
    replace (prefix "" s) with true by now destruct s.
    now rewrite IH.
  - destruct (Ascii.eqb x c) eqn:E.
    + apply Ascii.eqb_eq in E. congruence.
    + now rewrite IH.
Qed.

Lemma replace_nl (new s : string) :
  replace nl new s = replace_char newline new s.
Proof. apply replace_from_char. Qed.

Lemma replace_char_app (c : ascii) (new a b : string) :
  replace_char c new (a ++ b) = replace_char c new a ++ replace_char c new b.
Proof.
  induction a as [|x a IH]; simpl; [reflexivity|].
  now rewrite IH, append_assoc.
Qed.

Lemma replace_char_absent (c : ascii) (new s : string) :
  ~ In c (list_ascii_of_string s) -> replace_char c new s = s.
Proof.
  induction s as [|x s IH]; simpl; intros H; [reflexivity|].
  destruct (Ascii.eqb x c) eqn:E.
  - apply Ascii.eqb_eq in E. tauto.
  - simpl. rewrite IH; tauto.
Qed.

Lemma replace_char_clean (c : ascii) (new s : string) :
  ~ In c (list_ascii_of_string new) ->
  ~ In c (list_ascii_of_string (replace_char c new s)).
Proof.
  intros Hnew. induction s as [|x s IH]; simpl; [tauto|].
  rewrite chars_app, in_app_iff. intros [H|H]; [|tauto].
  destruct (Ascii.eqb x c) eqn:E; [tauto|].
  apply Ascii.eqb_neq in E. simpl in H. tauto.
Qed.

(** ** Dictionaries *)

Lemma mem_In (k : string) (l : list string) : mem k l = true <-> In k l.
Proof.
  unfold mem. rewrite existsb_exists. split.
  - intros [x [Hin Heq]]. apply String.eqb_eq in Heq. now subst.
  - intros H. exists k. split; [assumption|apply String.eqb_refl].
Qed.

Lemma keys_eq_spec (a b : list string) :
  keys_eq a b = true <-> (forall k, In k a <-> In k b).
Proof.
  unfold keys_eq. rewrite andb_true_iff, !forallb_forall. split.
  - intros [Hab Hba] k. split; intros H.
    + apply mem_In, Hab, H.
    + apply mem_In, Hba, H.
  - intros H. split; intros k Hk; apply mem_In, H, Hk.
Qed.

Lemma dict_get_keys {V} (k : string) (d : dict V) :
  In k (dict_keys d) <-> exists v, dict_get k d = Some v.
Proof.
  induction d as [|[k' v'] d IH]; simpl.
  - split; [tauto|]. intros [v Hv]. discriminate.
  - destruct (String.eqb_spec k' k) as [->|Hne].
    + split; [eauto|auto].
    + rewrite IH. split; [|auto]. intros [H|H]; [congruence|assumption].
Qed.

Lemma dict_get_set_same {V} (k : string) (v : V) (d : dict V) :
  dict_get k (dict_set k v d) = Some v.
Proof.
  induction d as [|[k' v'] d IH]; simpl.
  - now rewrite String.eqb_refl.
  - destruct (String.eqb_spec k' k) as [->|Hne]; simpl.
    + now rewrite String.eqb_refl.
    + destruct (String.eqb_spec k' k); [congruence|assumption].
Qed.

Lemma dict_get_set_other {V} (k k' : string) (v : V) (d : dict V) :
  k <> k' -> dict_get k' (dict_set k v d) = dict_get k' d.
Proof.
  intros Hne. induction d as [|[k0 v0] d IH]; simpl.
  - destruct (String.eqb_spec k k'); [congruence|reflexivity].
  - destruct (String.eqb_spec k0 k) as [->|Hk]; simpl.
    + destruct (String.eqb_spec k k'); [congruence|reflexivity].
    + now rewrite IH.
Qed.

Lemma dict_item_set_same {V} (k : string) (v : V) (d : dict V) :
  dict_item (dict_set k v d) k = Ok v.
Proof. unfold dict_item. now rewrite dict_get_set_same. Qed.

(** ** The loop of [ComputePackageDiffs] *)

Section LoopProperties.

Variables before_sizes after_sizes : dict PackageSizes.

Local Abbreviation delta_c := (compressed_delta before_sizes after_sizes).
Local Abbreviation delta_u :=
  (uncompressed_delta before_sizes after_sizes).

Lemma grew_line_not_nil (p : string) (d : Z) (s : string) :
  s ++ grew_line p d <> "".
Proof.
  intros H. apply append_eq_nil in H. destruct H as [_ H].
  unfold grew_line in H. simpl in H. discriminate.
Qed.

Lemma loop_body_eq (st : LoopState) (p : string) (a b : PackageSizes) :
  dict_get p after_sizes = Some a ->
  dict_get p before_sizes = Some b ->
  let d := compressed a - compressed b in
  loop_body before_sizes after_sizes st p =
  Ok {| ls_compressed := dict_set p d (ls_compressed st);
        ls_uncompressed :=
          dict_set p (uncompressed a - uncompressed b) (ls_uncompressed st);
        ls_status_code := if d >=? _MAX_DELTA_BYTES then 1
                          else ls_status_code st;
        ls_summary :=
          if d >=? _MAX_DELTA_BYTES
          then (if (ls_status_code st =? 1) && (ls_summary st =? "")%string
                then HEADER else ls_summary st) ++ grew_line p d
          else ls_summary st |}.
Proof.
  intros Ha Hb d. unfold loop_body, dict_item. rewrite Ha, Hb. cbn [bind].
  rewrite dict_get_set_same. cbn [bind]. fold d.
  destruct (d >=? _MAX_DELTA_BYTES); reflexivity.
Qed.

(** In a sound state the guard of the header assignment is false. *)
Lemma header_guard_false (st : LoopState) :
  sound st ->
  (ls_status_code st =? 1) && (ls_summary st =? "")%string = false.
Proof.
  intros [[Hs _]|[_ Hne]].
  - rewrite Hs. reflexivity.
  - apply String.eqb_neq in Hne. rewrite Hne. apply andb_false_r.
Qed.

Lemma loop_body_raises_iff (st : LoopState) (p : string) :
  delta_c p = None ->
  loop_body before_sizes after_sizes st p = Raise (KeyError p).
Proof.
  unfold compressed_delta, loop_body, dict_item.
  destruct (dict_get p after_sizes); [|reflexivity].
  destruct (dict_get p before_sizes); [discriminate|reflexivity].
Qed.

Lemma loop_spec (names : list string) :
  forall st,
    (forall p, In p names -> delta_c p <> None) ->
    sound st ->
    exists st',
      loop before_sizes after_sizes names st = Ok st'
      /\ sound st'
      /\ ls_summary st' =
           ls_summary st ++ lines_text (failing before_sizes after_sizes names)
      /\ ls_status_code st' =
           match failing before_sizes after_sizes names with
           | [] => ls_status_code st
           | _ => 1
           end.
Proof.
  induction names as [|p names IH]; intros st Hall Hsound.
  - exists st. cbn. rewrite append_nil_r. auto.
  - assert (Hp : delta_c p <> None) by (apply Hall; now left).
    unfold compressed_delta in Hp.
    destruct (dict_get p after_sizes) as [a|] eqn:Ha; [|congruence].
    destruct (dict_get p before_sizes) as [b|] eqn:Hb; [|congruence].
    cbn [loop failing]. unfold compressed_delta. rewrite Ha, Hb.
    rewrite (loop_body_eq st p a b Ha Hb). cbn [bind].
    rewrite (header_guard_false st Hsound).
    set (d := compressed a - compressed b).
    destruct (d >=? _MAX_DELTA_BYTES) eqn:Hd.
    + match goal with
      | |- context [loop _ _ names ?s] =>
          destruct (IH s) as [st' [Hrun [Hs' [Hsum Hst]]]]
      end; [intros q Hq; apply Hall; now right| |].
      * right. cbn. split; [reflexivity|apply grew_line_not_nil].
      * exists st'. rewrite Hrun. cbn in Hsum, Hst.
        repeat split; [assumption| |].
        -- rewrite Hsum. cbn [lines_text]. now rewrite append_assoc.
        -- rewrite Hst. now destruct (failing _ _ names).
    + match goal with
      | |- context [loop _ _ names ?s] =>
          destruct (IH s) as [st' [Hrun [Hs' [Hsum Hst]]]]
      end; [intros q Hq; apply Hall; now right| |].
      * destruct Hsound as [H|H]; [left|right]; exact H.
      * exists st'. rewrite Hrun. cbn in Hsum, Hst. auto.
Qed.

Lemma loop_growth (names : list string) :
  forall st st',
    loop before_sizes after_sizes names st = Ok st' ->
    forall p,
      (In p names ->
       dict_get p (ls_compressed st') = delta_c p
       /\ dict_get p (ls_uncompressed st') = delta_u p)
      /\ (~ In p names ->
          dict_get p (ls_compressed st') = dict_get p (ls_compressed st)
          /\ dict_get p (ls_uncompressed st')
             = dict_get p (ls_uncompressed st)).
Proof.
  induction names as [|q names IH]; intros st st' Hrun p.
  - cbn in Hrun. injection Hrun as <-. split; [intros []|auto].
  - cbn [loop] in Hrun.
    destruct (delta_c q) as [dq|] eqn:Hq;
      [|rewrite (loop_body_raises_iff st q Hq) in Hrun; discriminate].
    pose proof Hq as Hq'. unfold compressed_delta in Hq'.
    destruct (dict_get q after_sizes) as [a|] eqn:Ha; [|discriminate].
    destruct (dict_get q before_sizes) as [b|] eqn:Hb; [|discriminate].
    rewrite (loop_body_eq st q a b Ha Hb) in Hrun. cbn [bind] in Hrun.
    specialize (IH _ _ Hrun p). cbn [ls_compressed ls_uncompressed] in IH.
    destruct IH as [IHin IHout].
    destruct (in_dec string_dec p names) as [Hin|Hout].
    + split; [intros _; auto|]. intros Hn. exfalso. apply Hn. now right.
    + destruct (string_dec q p) as [->|Hne].
      * split; [intros _|intros Hn; exfalso; apply Hn; now left].
        destruct (IHout Hout) as [Hc Hu]. rewrite Hc, Hu.
        rewrite !dict_get_set_same.
        unfold compressed_delta, uncompressed_delta.
        now rewrite Ha, Hb.
      * split; [intros [H|H]; [congruence|contradiction]|].
        intros _. destruct (IHout Hout) as [Hc Hu]. rewrite Hc, Hu.
        now rewrite !dict_get_set_other.
Qed.

Lemma failing_In (names : list string) (p : string) (d : Z) :
  In (p, d) (failing before_sizes after_sizes names) <->
  In p names /\ delta_c p = Some d /\ _MAX_DELTA_BYTES <= d.
Proof.
  induction names as [|q names IH]; cbn [failing In]; [tauto|].
  destruct (delta_c q) as [dq|] eqn:Hq.
  - destruct (dq >=? _MAX_DELTA_BYTES) eqn:Hge.
    + cbn [In]. rewrite IH. split.
      * intros [H|H]; [|tauto]. injection H as <- <-.
        repeat split; auto. apply Z.geb_le in Hge. lia.
      * intros [[->|Hin] [Hd Hle]]; [left|right; tauto].
        rewrite Hq in Hd. now injection Hd as ->.
    + rewrite IH. split; [tauto|].
      intros [[->|Hin] [Hd Hle]]; [|tauto].
      rewrite Hq in Hd. injection Hd as ->.
      rewrite Z.geb_leb in Hge. apply Z.leb_gt in Hge. lia.
  - rewrite IH. split; [tauto|].
    intros [[->|Hin] [Hd Hle]]; [congruence|tauto].
Qed.

End LoopProperties.

(** ** [ComputePackageDiffs] on snapshots with the same packages *)

Lemma same_packages_delta (before_sizes after_sizes : dict PackageSizes) :
  same_packages before_sizes after_sizes ->
  forall p, In p (dict_keys before_sizes) ->
  compressed_delta before_sizes after_sizes p <> None.
Proof.
  intros Hsame p Hin. unfold compressed_delta.
  pose proof (proj1 (Hsame p) Hin) as Hin'.
  apply dict_get_keys in Hin as [b ->]. apply dict_get_keys in Hin' as [a ->].
  discriminate.
Qed.

Lemma compute_diffs_ok (before_sizes after_sizes : dict PackageSizes) :
  same_packages before_sizes after_sizes ->
  exists st,
    loop before_sizes after_sizes (dict_keys before_sizes) loop_init = Ok st
    /\ compute_diffs before_sizes after_sizes = Ok (report st)
    /\ ls_summary st =
         lines_text
           (failing before_sizes after_sizes (dict_keys before_sizes))
    /\ ls_status_code st =
         match failing before_sizes after_sizes (dict_keys before_sizes) with
         | [] => 0
         | _ => 1
         end.
Proof.
  intros Hsame.
  destruct (loop_spec before_sizes after_sizes (dict_keys before_sizes)
              loop_init (same_packages_delta _ _ Hsame))
    as [st [Hrun [_ [Hsum Hst]]]]; [left; split; reflexivity|].
  exists st. unfold compute_diffs.
  rewrite (proj2 (keys_eq_spec _ _) Hsame), Hrun.
  repeat split; assumption.
Qed.

Lemma status_code_iff (before_sizes after_sizes : dict PackageSizes)
    (status : Z) :
  status =
    match failing before_sizes after_sizes (dict_keys before_sizes) with
    | [] => 0
    | _ => 1
    end ->
  (status = 0 \/ status = 1)
  /\ (status = 1 <->
      exists p d, compressed_delta before_sizes after_sizes p = Some d
                  /\ _MAX_DELTA_BYTES <= d).
Proof.
  intros ->.
  destruct (failing before_sizes after_sizes (dict_keys before_sizes))
    as [|[p d] l] eqn:E.
  - split; [now left|]. split; [discriminate|].
    intros [p [d [Hd Hle]]]. exfalso.
    assert (Hin : In (p, d) []); [|exact Hin].
    rewrite <- E. apply failing_In. repeat split; try assumption.
    apply dict_get_keys. unfold compressed_delta in Hd.
    destruct (dict_get p after_sizes); [|discriminate].
    destruct (dict_get p before_sizes) as [b|]; [eauto|discriminate].
  - split; [now right|]. split; [intros _|reflexivity].
    exists p, d. apply (failing_In before_sizes after_sizes
                          (dict_keys before_sizes)).
    rewrite E. now left.
Qed.

Lemma ComputePackageDiffs_read
    (read : string -> outcome (dict PackageSizes))
    (before_file after_file : string)
    (before_sizes after_sizes : dict PackageSizes) :
  read before_file = Ok before_sizes ->
  read after_file = Ok after_sizes ->
  ComputePackageDiffs read before_file after_file
  = compute_diffs before_sizes after_sizes.
Proof.
  intros Hb Ha. unfold ComputePackageDiffs. now rewrite Hb, Ha.
Qed.

Lemma lines_text_In (p : string) (d : Z) (l : list (string * Z)) :
  In (p, d) l ->
  exists pre post, lines_text l = pre ++ grew_line p d ++ post.
Proof.
  induction l as [|[q e] l IH]; intros Hin; [destruct Hin|].
  destruct Hin as [Heq|Hin].
  - injection Heq as -> ->. exists "", (lines_text l). reflexivity.
  - destruct (IH Hin) as [pre [post Heq]].
    exists (grew_line q e ++ pre), post. cbn [lines_text].
    now rewrite Heq, append_assoc.
Qed.

Lemma grew_line_split (p : string) (d : Z) :
  grew_line p d = ("- " ++ p ++ " grew by " ++ format_d d ++ " bytes") ++ nl.
Proof.
  unfold grew_line. now rewrite !append_assoc.
Qed.

(** The text before the trailer is empty or ends a line. *)
Lemma lines_text_end (l : list (string * Z)) :
  lines_text l = "" \/ exists body, lines_text l = body ++ nl.
Proof.
  induction l as [|[p d] l IH]; [now left|]. right. cbn [lines_text].
  destruct IH as [->|[body ->]].
  - rewrite append_nil_r, grew_line_split. eauto.
  - exists (grew_line p d ++ body). now rewrite append_assoc.
Qed.

Lemma dict_get_compressed_view (p : string) (d : dict PackageSizes) :
  dict_get p (compressed_view d) = option_map compressed (dict_get p d).
Proof.
  induction d as [|[k v] d IH]; [reflexivity|]. cbn.
  destruct (k =? p)%string; [reflexivity|assumption].
Qed.

Lemma dict_keys_compressed_view (d : dict PackageSizes) :
  dict_keys (compressed_view d) = dict_keys d.
Proof.
  unfold dict_keys, compressed_view. rewrite map_map. reflexivity.
Qed.

Lemma compressed_delta_view (b a b' a' : dict PackageSizes) (p : string) :
  compressed_view b = compressed_view b' ->
  compressed_view a = compressed_view a' ->
  compressed_delta b a p = compressed_delta b' a' p.
Proof.
  intros Hb Ha. unfold compressed_delta.
  pose proof (dict_get_compressed_view p b) as Eb.
  pose proof (dict_get_compressed_view p a) as Ea.
  rewrite Hb, dict_get_compressed_view in Eb.
  rewrite Ha, dict_get_compressed_view in Ea.
  destruct (dict_get p a), (dict_get p a'), (dict_get p b), (dict_get p b');
    cbn in Ea, Eb; congruence.
Qed.

Lemma sample_same_packages (a b : dict PackageSizes) :
  keys_eq (dict_keys a) (dict_keys b) = true -> same_packages a b.
Proof. intros H. unfold same_packages. now apply keys_eq_spec. Qed.

Lemma grew_line_12288 (p : string) :
  grew_line p 12288 = "- " ++ p ++ " grew by 12288 bytes" ++ nl.
Proof. reflexivity. Qed.

Lemma rendered_line_12288 (p : string) :
  replace_char newline "<br>" (grew_line p 12288)
  = "- " ++ replace nl "<br>" p ++ " grew by 12288 bytes<br>".
Proof.
  rewrite grew_line_12288, replace_nl.
  change ("- " ++ p ++ " grew by 12288 bytes" ++ nl)
    with ("- " ++ (p ++ " grew by 12288 bytes" ++ nl)).
  rewrite (replace_char_app newline "<br>" "- ").
  rewrite (replace_char_app newline "<br>" p).
  reflexivity.
Qed.

(** ** The claims about [ComputePackageDiffs] *)

(** C1 (what the code does): when a package fails, the summary starts with
    that package's line.  The header "Size check failed! The following
    package(s) are affected:" is never written, with one failing package or
    with two: its guard asks for a status that is already 1 and a summary
    that is still empty. *)
Theorem header_missing_on_failure :
  (exists g,
     ComputePackageDiffs (sample_reader one_before one_grown)
       "before.json" "after.json" = Ok g
     /\ growth_status_code g = 1
     /\ growth_summary g =
          "- pkgA grew by 12288 bytes<br>"
          ++ "<br>See the following document for more information about this trybot:<br>"
          ++ _TRYBOT_DOC
     /\ contains "Size check failed!" (growth_summary g) = false)
  /\ (exists g,
        ComputePackageDiffs (sample_reader two_before two_grown)
          "before.json" "after.json" = Ok g
        /\ growth_status_code g = 1
        /\ growth_summary g =
             "- pkgA grew by 12288 bytes<br>- pkgB grew by 20000 bytes<br>"
             ++ "<br>See the following document for more information about this trybot:<br>"
             ++ _TRYBOT_DOC
        /\ contains "Size check failed!" (growth_summary g) = false).
Proof.
  split; eexists; (split; [reflexivity|]); cbn [growth_status_code growth_summary];
    repeat split; vm_compute; reflexivity.
Qed.

(** C3: on snapshots with the same packages the status code is 1 exactly
    when some package's compressed growth is at least 12 * 1024 bytes.
    Growth of 12287 bytes does not fail a package; growth of 12288 bytes
    sets the status code to 1 and adds the line "- P grew by 12288 bytes" to
    the summary, which is returned with its newlines replaced. *)
Theorem status_code_threshold
    (read : string -> outcome (dict PackageSizes))
    (before_file after_file : string)
    (before_sizes after_sizes : dict PackageSizes) :
  read before_file = Ok before_sizes ->
  read after_file = Ok after_sizes ->
  same_packages before_sizes after_sizes ->
  exists g raw,
    ComputePackageDiffs read before_file after_file = Ok g
    /\ (growth_status_code g = 0 \/ growth_status_code g = 1)
    /\ (growth_status_code g = 1 <->
        exists p d, compressed_delta before_sizes after_sizes p = Some d
                    /\ 12 * 1024 <= d)
    /\ growth_summary g = replace nl "<br>" raw
    /\ raw = lines_text
               (failing before_sizes after_sizes (dict_keys before_sizes))
             ++ trailer
    /\ ((forall p d, compressed_delta before_sizes after_sizes p = Some d ->
                     d <= 12287) ->
        growth_status_code g = 0)
    /\ (forall p,
          compressed_delta before_sizes after_sizes p = Some 12287 ->
          ~ In (p, 12287)
              (failing before_sizes after_sizes (dict_keys before_sizes)))
    /\ (forall p,
          compressed_delta before_sizes after_sizes p = Some 12288 ->
          growth_status_code g = 1
          /\ (exists pre post,
                raw = pre ++ ("- " ++ p ++ " grew by 12288 bytes" ++ nl)
                          ++ post)
          /\ (exists pre post,
                growth_summary g =
                pre ++ ("- " ++ replace nl "<br>" p
                             ++ " grew by 12288 bytes<br>") ++ post)).
Proof.
  intros Hb Ha Hsame.
  destruct (compute_diffs_ok _ _ Hsame) as [st [_ [Hcomp [Hsum Hst]]]].
  destruct (status_code_iff _ _ _ Hst) as [Hrange Hiff].
  exists (report st), (ls_summary st ++ trailer).
  rewrite (ComputePackageDiffs_read _ _ _ _ _ Hb Ha).
  cbn [report growth_status_code growth_summary].
  split; [assumption|]. split; [assumption|]. split; [exact Hiff|].
  split; [reflexivity|]. split; [now rewrite Hsum|].
  split; [|split].
  - intros Hall. destruct Hrange as [H|H]; [assumption|].
    apply Hiff in H. destruct H as [p [d [Hd Hle]]].
    specialize (Hall p d Hd). unfold _MAX_DELTA_BYTES in Hle. lia.
  - intros p Hp Hin. apply failing_In in Hin.
    destruct Hin as [_ [_ Hle]]. unfold _MAX_DELTA_BYTES in Hle. lia.
  - intros p Hp.
    assert (Hin : In (p, 12288)
                    (failing before_sizes after_sizes
                       (dict_keys before_sizes))).
    { apply failing_In. repeat split; [|assumption|].
      - apply dict_get_keys. unfold compressed_delta in Hp.
        destruct (dict_get p after_sizes); [|discriminate].
        destruct (dict_get p before_sizes) as [b|]; [eauto|discriminate].
      - unfold _MAX_DELTA_BYTES. lia. }
    split; [apply Hiff; exists p, 12288; split;
            [assumption|unfold _MAX_DELTA_BYTES; lia]|].
    destruct (lines_text_In _ _ _ Hin) as [pre [post Heq]].
    rewrite Hsum, Heq, grew_line_12288. split.
    + exists pre, (post ++ trailer). now rewrite !append_assoc.
    + exists (replace_char newline "<br>" pre),
             (replace_char newline "<br>" (post ++ trailer)).
      rewrite <- grew_line_12288, <- rendered_line_12288.
      rewrite replace_nl, <- !replace_char_app.
      now rewrite !append_assoc.
Qed.

(** One package that grows by 12288 bytes. *)
Lemma status_code_threshold_witness :
  exists g,
    ComputePackageDiffs (sample_reader one_before one_grown)
      "before.json" "after.json" = Ok g
    /\ growth_status_code g = 1
    /\ exists pre post,
         growth_summary g =
         pre ++ ("- " ++ replace nl "<br>" "pkgA"
                      ++ " grew by 12288 bytes<br>") ++ post.
Proof.
  destruct (status_code_threshold (sample_reader one_before one_grown)
              "before.json" "after.json" one_before one_grown
              eq_refl eq_refl
              (sample_same_packages one_before one_grown eq_refl))
    as [g [raw [Hrun [_ [_ [_ [_ [_ [_ Hline]]]]]]]]].
  destruct (Hline "pkgA" eq_refl) as [Hst [_ Hsub]].
  exists g. auto.
Defined.

(** C4: when the two snapshots do not hold the same package names,
    [ComputePackageDiffs] raises the assertion error and returns no
    report. *)
Theorem mismatched_packages_raise
    (read : string -> outcome (dict PackageSizes))
    (before_file after_file : string)
    (before_sizes after_sizes : dict PackageSizes) :
  read before_file = Ok before_sizes ->
  read after_file = Ok after_sizes ->
  ~ same_packages before_sizes after_sizes ->
  ComputePackageDiffs read before_file after_file
  = Raise (AssertionError (dict_keys before_sizes) (dict_keys after_sizes))
  /\ forall g, ComputePackageDiffs read before_file after_file <> Ok g.
Proof.
  intros Hb Ha Hdiff.
  rewrite (ComputePackageDiffs_read _ _ _ _ _ Hb Ha). unfold compute_diffs.
  destruct (keys_eq (dict_keys before_sizes) (dict_keys after_sizes)) eqn:E.
  - exfalso. apply Hdiff. intros k. now apply keys_eq_spec.
  - split; [reflexivity|discriminate].
Qed.

(** [pkgA] and [pkgB] before, [pkgC] after. *)
Lemma mismatched_packages_raise_witness :
  ComputePackageDiffs (sample_reader two_before other_after)
    "before.json" "after.json"
  = Raise (AssertionError ["pkgA"; "pkgB"] ["pkgC"])
  /\ forall g,
       ComputePackageDiffs (sample_reader two_before other_after)
         "before.json" "after.json" <> Ok g.
Proof.
  apply (mismatched_packages_raise (sample_reader two_before other_after)
           "before.json" "after.json" two_before other_after
           eq_refl eq_refl).
  intros Hsame. destruct (proj2 (Hsame "pkgC")) as [H|[H|[]]];
    [now left|discriminate H|discriminate H].
Defined.

(** C5: on snapshots with the same packages the report maps every package
    of the before snapshot, in the compressed mapping, to its compressed
    size after minus before, and in the uncompressed mapping to its
    uncompressed size after minus before. *)
Theorem growth_is_after_minus_before
    (read : string -> outcome (dict PackageSizes))
    (before_file after_file : string)
    (before_sizes after_sizes : dict PackageSizes) :
  read before_file = Ok before_sizes ->
  read after_file = Ok after_sizes ->
  same_packages before_sizes after_sizes ->
  exists g,
    ComputePackageDiffs read before_file after_file = Ok g
    /\ forall p b,
         dict_get p before_sizes = Some b ->
         exists a,
           dict_get p after_sizes = Some a
           /\ dict_get p (growth_compressed g)
              = Some (compressed a - compressed b)
           /\ dict_get p (growth_uncompressed g)
              = Some (uncompressed a - uncompressed b).
Proof.
  intros Hb Ha Hsame.
  destruct (compute_diffs_ok _ _ Hsame) as [st [Hrun [Hcomp _]]].
  exists (report st). rewrite (ComputePackageDiffs_read _ _ _ _ _ Hb Ha).
  split; [assumption|]. intros p b Hp.
  assert (Hin : In p (dict_keys before_sizes))
    by (apply dict_get_keys; eauto).
  destruct (proj1 (dict_get_keys p after_sizes) (proj1 (Hsame p) Hin))
    as [a Hpa].
  exists a. split; [assumption|].
  destruct (proj1 (loop_growth _ _ _ _ _ Hrun p) Hin) as [Hc Hu].
  cbn [report growth_compressed growth_uncompressed].
  rewrite Hc, Hu. unfold compressed_delta, uncompressed_delta.
  now rewrite Hpa, Hp.
Qed.

(** Two packages, listed in a different order after. *)
Lemma growth_is_after_minus_before_witness :
  exists g,
    ComputePackageDiffs (sample_reader two_before two_grown)
      "before.json" "after.json" = Ok g
    /\ dict_get "pkgB" (growth_compressed g) = Some 20000
    /\ dict_get "pkgB" (growth_uncompressed g) = Some 0.
Proof.
  destruct (growth_is_after_minus_before
              (sample_reader two_before two_grown)
              "before.json" "after.json" two_before two_grown
              eq_refl eq_refl
              (sample_same_packages two_before two_grown eq_refl))
    as [g [Hrun Hall]].
  destruct (Hall "pkgB" (sizes 300 400) eq_refl) as [a [Ha [Hc Hu]]].
  injection Ha as <-. exists g. auto.
Defined.

(** C6: on snapshots with the same packages, when every compressed growth
    is below the threshold the status code is 0, whatever the uncompressed
    sizes are; and two runs whose snapshots differ in uncompressed sizes
    only return the same status code. *)
Theorem uncompressed_growth_ignored
    (read : string -> outcome (dict PackageSizes))
    (before_file after_file : string)
    (before_sizes after_sizes : dict PackageSizes) :
  read before_file = Ok before_sizes ->
  read after_file = Ok after_sizes ->
  same_packages before_sizes after_sizes ->
  exists g,
    ComputePackageDiffs read before_file after_file = Ok g
    /\ ((forall p d, compressed_delta before_sizes after_sizes p = Some d ->
                     d < _MAX_DELTA_BYTES) ->
        growth_status_code g = 0)
    /\ forall read' before_sizes' after_sizes',
         read' before_file = Ok before_sizes' ->
         read' after_file = Ok after_sizes' ->
         compressed_view before_sizes' = compressed_view before_sizes ->
         compressed_view after_sizes' = compressed_view after_sizes ->
         exists g',
           ComputePackageDiffs read' before_file after_file = Ok g'
           /\ growth_status_code g' = growth_status_code g.
Proof.
  intros Hb Ha Hsame.
  destruct (compute_diffs_ok _ _ Hsame) as [st [_ [Hcomp [_ Hst]]]].
  destruct (status_code_iff _ _ _ Hst) as [Hrange Hiff].
  exists (report st). rewrite (ComputePackageDiffs_read _ _ _ _ _ Hb Ha).
  cbn [report growth_status_code].
  split; [assumption|]. split.
  - intros Hall. destruct Hrange as [H|H]; [assumption|].
    apply Hiff in H. destruct H as [p [d [Hd Hle]]].
    specialize (Hall p d Hd). lia.
  - intros read' before' after' Hb' Ha' Vb Va.
    assert (Hsame' : same_packages before' after').
    { intros k.
      rewrite <- (dict_keys_compressed_view before'),
              <- (dict_keys_compressed_view after'), Vb, Va,
              !dict_keys_compressed_view.
      apply Hsame. }
    destruct (compute_diffs_ok _ _ Hsame') as [st' [_ [Hcomp' [_ Hst']]]].
    destruct (status_code_iff _ _ _ Hst') as [Hrange' Hiff'].
    exists (report st'). rewrite (ComputePackageDiffs_read _ _ _ _ _ Hb' Ha').
    split; [assumption|]. cbn [report growth_status_code].
    assert (Heq : ls_status_code st' = 1 <-> ls_status_code st = 1).
    { rewrite Hiff, Hiff'.
      split; intros [p [d [Hd Hle]]]; exists p, d; split; try assumption.
      - now rewrite <- (compressed_delta_view _ _ _ _ p Vb Va).
      - now rewrite (compressed_delta_view _ _ _ _ p Vb Va). }
    destruct Hrange as [H|H], Hrange' as [H'|H']; try congruence.
    + apply Heq in H'. congruence.
    + apply Heq in H. congruence.
Qed.

(** Compressed growth of 12287 bytes, uncompressed growth of 88000. *)
Lemma uncompressed_growth_ignored_witness :
  exists g,
    ComputePackageDiffs (sample_reader one_before one_below)
      "before.json" "after.json" = Ok g
    /\ dict_get "pkgA" (growth_uncompressed g) = Some 88000
    /\ growth_status_code g = 0.
Proof.
  destruct (uncompressed_growth_ignored
              (sample_reader one_before one_below)
              "before.json" "after.json" one_before one_below
              eq_refl eq_refl
              (sample_same_packages one_before one_below eq_refl))
    as [g [Hrun [Hzero _]]].
  exists g. split; [assumption|]. split.
  - vm_compute in Hrun. injection Hrun as <-. reflexivity.
  - apply Hzero. intros p d.
    unfold compressed_delta, one_before, one_below. cbn [dict_get].
    destruct (String.eqb "pkgA" p); [|discriminate].
    intros H. injection H as <-. reflexivity.
Defined.

(** C7: on snapshots with the same packages the summary, before its
    newlines are replaced, ends with an empty line and the pointer to the
    trybot document; the summary that is returned has "<br>" in place of
    every newline and holds no newline character. *)
Theorem summary_trailer_and_breaks
    (read : string -> outcome (dict PackageSizes))
    (before_file after_file : string)
    (before_sizes after_sizes : dict PackageSizes) :
  read before_file = Ok before_sizes ->
  read after_file = Ok after_sizes ->
  same_packages before_sizes after_sizes ->
  exists g body,
    ComputePackageDiffs read before_file after_file = Ok g
    /\ growth_summary g =
         replace nl "<br>"
           (body ++ nl
              ++ "See the following document for more information about this trybot:"
              ++ nl ++ _TRYBOT_DOC)
    /\ (body = "" \/ exists body', body = body' ++ nl)
    /\ growth_summary g =
         replace nl "<br>" body
           ++ "<br>See the following document for more information about this trybot:<br>"
           ++ _TRYBOT_DOC
    /\ ~ In newline (list_ascii_of_string (growth_summary g)).
Proof.
  intros Hb Ha Hsame.
  destruct (compute_diffs_ok _ _ Hsame) as [st [_ [Hcomp [Hsum _]]]].
  exists (report st), (ls_summary st).
  rewrite (ComputePackageDiffs_read _ _ _ _ _ Hb Ha).
  cbn [report growth_summary].
  split; [assumption|]. split; [reflexivity|]. split; [|split].
  - rewrite Hsum. apply lines_text_end.
  - rewrite !replace_nl, replace_char_app. reflexivity.
  - rewrite replace_nl. apply replace_char_clean.
    vm_compute. intros [H|[H|[H|[H|[]]]]]; discriminate H.
Qed.

(** Two failing packages. *)
Lemma summary_trailer_and_breaks_witness :
  exists g,
    ComputePackageDiffs (sample_reader two_before two_grown)
      "before.json" "after.json" = Ok g
    /\ ~ In newline (list_ascii_of_string (growth_summary g)).
Proof.
  destruct (summary_trailer_and_breaks
              (sample_reader two_before two_grown)
              "before.json" "after.json" two_before two_grown
              eq_refl eq_refl
              (sample_same_packages two_before two_grown eq_refl))
    as [g [body [Hrun [_ [_ [_ Hclean]]]]]].
  exists g. auto.
Defined.

(** ** The command line tool of the size differ *)

(** C2 (as amended): once the inputs are found, [main] returns 0 exactly
    when [ComputePackageDiffs] returned a report and 1 exactly when it
    raised, whether or not the results file could then be opened and
    written.  An exception raised in the [try] block, by the computation, by
    opening the file or by dumping into it, is caught: its traceback goes to
    the standard error stream and its message to the standard output. *)
Theorem main_exit_code
    (read : string -> outcome (dict PackageSizes)) (sizes_file cwd : string)
    (isdir isfile : string -> bool)
    (open_raises : string -> option exn) (dump_raises : Growth -> option exn)
    (args : Args) (w : World) :
  isdir (before_dir args) = true ->
  isdir (after_dir args) = true ->
  isfile (before_sizes_file sizes_file args) = true ->
  isfile (after_sizes_file sizes_file args) = true ->
  let computed :=
    ComputePackageDiffs read (before_sizes_file sizes_file args)
      (after_sizes_file sizes_file args) in
  let w0 := if verbose args then echo_args cwd args w else w in
  let path := results_path args in
  exists rc w',
    main read sizes_file cwd isdir isfile open_raises dump_raises args w
    = (Ok rc, w')
    /\ (rc = 0 <-> exists g, computed = Ok g)
    /\ (rc = 1 <-> exists e, computed = Raise e)
    /\ (forall e, computed = Raise e ->
          stdout w' = (stdout w0 ++ [ExnStr e])%list
          /\ stderr w' = (stderr w0 ++ [Traceback e])%list
          /\ files w' = files w0)
    /\ (forall g e, computed = Ok g -> open_raises path = Some e ->
          rc = 0
          /\ stdout w' = (stdout w0 ++ [ExnStr e])%list
          /\ stderr w' = (stderr w0 ++ [Traceback e])%list
          /\ files w' = files w0)
    /\ (forall g e, computed = Ok g -> open_raises path = None ->
          dump_raises g = Some e ->
          rc = 0
          /\ stdout w' = (stdout w0 ++ [ExnStr e])%list
          /\ stderr w' = (stderr w0 ++ [Traceback e])%list
          /\ files w' = (path, Truncated) :: files w0)
    /\ (forall g, computed = Ok g -> open_raises path = None ->
          dump_raises g = None ->
          rc = 0
          /\ stdout w' = stdout w0
          /\ stderr w' = stderr w0
          /\ files w' = (path, Dumped g) :: (path, Truncated) :: files w0).
Proof.
  intros Hbd Had Hbf Haf computed w0 path.
  unfold main. rewrite Hbd, Had, Hbf, Haf. cbn [negb orb].
  fold w0. unfold try_block. fold computed. fold path.
  destruct computed as [g|e] eqn:Hc.
  - destruct (open_raises path) as [e|] eqn:Ho;
      [|destruct (dump_raises g) as [e|] eqn:Hd];
      cbn [test_completed except_block raised world_after];
      eexists; eexists; (split; [reflexivity|]);
      (split; [split; [eauto|reflexivity]|]);
      (split; [split; [discriminate|intros [e' He']; discriminate]|]);
      (split; [intros e' He'; discriminate|]);
      repeat split; try reflexivity;
      intros; try congruence; repeat split; try reflexivity;
      try (cbn; congruence).
  - cbn [test_completed except_block raised world_after].
    eexists; eexists; split; [reflexivity|].
    split; [split; [discriminate|intros [g Hg]; discriminate]|].
    split; [split; [eauto|reflexivity]|].
    split; [intros e' He'; injection He' as <-; repeat split|].
    repeat split; intros; discriminate.
Qed.

(** When an input is missing, [main] raises and returns no exit code. *)
Lemma main_missing_input_raises
    (read : string -> outcome (dict PackageSizes)) (sizes_file cwd : string)
    (isdir isfile : string -> bool)
    (open_raises : string -> option exn) (dump_raises : Growth -> option exn)
    (args : Args) (w : World) :
  isdir (before_dir args) && isdir (after_dir args)
    && isfile (before_sizes_file sizes_file args)
    && isfile (after_sizes_file sizes_file args) = false ->
  exists msg w',
    main read sizes_file cwd isdir isfile open_raises dump_raises args w
    = (Raise (Exception msg), w')
    /\ files w' = files w /\ stderr w' = stderr w.
Proof.
  intros H. unfold main.
  assert (Hw : files (if verbose args then echo_args cwd args w else w)
               = files w
               /\ stderr (if verbose args then echo_args cwd args w else w)
                  = stderr w)
    by (destruct (verbose args); split; reflexivity).
  destruct (isdir (before_dir args)), (isdir (after_dir args)),
    (isfile (before_sizes_file sizes_file args)),
    (isfile (after_sizes_file sizes_file args));
    try discriminate H; cbn [negb orb]; eexists; eexists;
    (split; [reflexivity|exact Hw]).
Qed.

(** The sample host, where the results file can be written. *)
Lemma main_exit_code_witness :
  exists rc w',
    BinarySizeDiffer.sample_main open_fine = (Ok rc, w')
    /\ rc = 0
    /\ exists g, files w' = [("/r.json", Dumped g); ("/r.json", Truncated)].
Proof.
  destruct (main_exit_code host_reader "package_sizes.json" "/src"
              (always true) (always true) open_fine dump_fine
              sample_args empty_world eq_refl eq_refl eq_refl eq_refl)
    as [rc [w' [Hrun [_ [_ [_ [_ [_ Hdone]]]]]]]].
  exists rc, w'. split; [exact Hrun|].
  destruct (Hdone _ eq_refl eq_refl eq_refl) as [Hrc [_ [_ Hfiles]]].
  split; [exact Hrc|]. eexists. exact Hfiles.
Defined.

(** C2 (as stated) fails: when the results file cannot be opened, [main]
    still returns 0, although nothing was written; the message of the
    exception is on the standard output and its traceback on the standard
    error stream. *)
Lemma exit_code_zero_without_results :
  fst (BinarySizeDiffer.sample_main open_denied) = Ok 0
  /\ files (snd (BinarySizeDiffer.sample_main open_denied)) = []
  /\ stdout (snd (BinarySizeDiffer.sample_main open_denied))
     = [ExnStr (OtherError "PermissionError" "/r.json")]
  /\ stderr (snd (BinarySizeDiffer.sample_main open_denied))
     = [Traceback (OtherError "PermissionError" "/r.json")]
  /\ ~ (fst (BinarySizeDiffer.sample_main open_denied) = Ok 0 <->
        (exists g,
           ComputePackageDiffs host_reader "/b/sizes/package_sizes.json"
             "/a/sizes/package_sizes.json" = Ok g)
        /\ open_denied (results_path sample_args) = None).
Proof.
  repeat split; try reflexivity.
  intros [H _]. destruct (H eq_refl) as [_ Hopen]. discriminate Hopen.
Qed.

(** ** The child arguments of the test runner *)

Import TestRunner.

Lemma In_list_append (x y : string) (l : list string) :
  In x l -> In x (list_append l y).
Proof. intros H. apply in_or_app. now left. Qed.

Lemma In_list_append_last (y : string) (l : list string) :
  In y (list_append l y).
Proof. apply in_or_app. right. now left. Qed.

Lemma In_list_extend (x : string) (l l' : list string) :
  In x l -> In x (list_extend l l').
Proof. intros H. apply in_or_app. now left. Qed.

Lemma starts_list_append (x z : string) (l : list string) :
  (exists rest, l = x :: rest) -> exists rest, list_append l z = x :: rest.
Proof. intros [rest ->]. eexists. reflexivity. Qed.

Lemma starts_list_extend (x : string) (l l' : list string) :
  (exists rest, l = x :: rest) -> exists rest, list_extend l l' = x :: rest.
Proof. intros [rest ->]. eexists. reflexivity. Qed.

Lemma starts_then_new (x y : string) (l : list string) :
  (exists z rest, l = x :: z :: rest) -> starts_then x y (list_append l y).
Proof.
  intros [z [rest ->]]. exists (z :: rest), []. reflexivity.
Qed.

Lemma starts_then_append (x y z : string) (l : list string) :
  starts_then x y l -> starts_then x y (list_append l z).
Proof.
  intros [pre [post ->]]. exists pre, (post ++ [z])%list.
  unfold list_append. cbn. now rewrite <- app_assoc.
Qed.

Lemma starts_then_extend (x y : string) (l l' : list string) :
  starts_then x y l -> starts_then x y (list_extend l l').
Proof.
  intros [pre [post ->]]. exists pre, (post ++ l')%list.
  unfold list_extend. cbn. now rewrite <- app_assoc.
Qed.

(** Properties of the list that the appending statements keep. *)
Section Kept.

Variable P : list string -> Prop.
Hypothesis P_append : forall l y, P l -> P (list_append l y).

Lemma kept_if_append (c : bool) (l : list string) (y : string) :
  P l -> P (if c then list_append l y else l).
Proof. destruct c; auto. Qed.

Lemma kept_if_append2 (c : bool) (l : list string) (y z : string) :
  P l -> P (if c then list_append (list_append l y) z else l).
Proof. destruct c; auto. Qed.

Hypothesis P_extend : forall l l', P l -> P (list_extend l l').

Lemma kept_if_extend (c : bool) (l l' : list string) :
  P l -> P (if c then list_extend l l' else l).
Proof. destruct c; auto. Qed.

Lemma kept_match_extend (l l' : list string) :
  P l -> P (match l' with [] => l | _ :: _ => list_extend l l' end).
Proof. destruct l'; auto. Qed.

End Kept.

Section ChildArgs.

Variable package_t : Type.
Variable args : @Args package_t.

(** [build_child_args] in three phases: up to the jobs argument, from there
    up to the retry limit of the command line, and the rest. *)
Lemma build_child_args_phases (Q0 Q1 Q2 : list string -> Prop) :
  Q0 ["--test-launcher-retry-limit=0"] ->
  (forall l y, Q0 l -> Q0 (list_append l y)) ->
  (forall l, Q0 l ->
     Q1 (list_append l
           ("--test-launcher-jobs=" ++ format_d (test_concurrency args)))) ->
  (forall l y, Q1 l -> Q1 (list_append l y)) ->
  (forall l, Q1 l ->
     Q2 (if truthy_str (test_launcher_retry_limit args)
         then list_append l
                ("--test-launcher-retry-limit="
                   ++ unwrap_str (test_launcher_retry_limit args))
         else l)) ->
  (forall l y, Q2 l -> Q2 (list_append l y)) ->
  (forall l l', Q2 l -> Q2 (list_extend l l')) ->
  Q2 (build_child_args args).
Proof.
  intros H0 A0 H1 A1 H2 A2 E2. unfold build_child_args. cbv zeta.
  apply kept_match_extend; [assumption|].
  apply kept_if_extend; [assumption|].
  apply kept_if_append; [assumption|].
  apply kept_if_append; [assumption|].
  apply H2.
  apply kept_if_append2; [assumption|].
  apply kept_if_append; [assumption|].
  apply H1.
  apply kept_if_append; [assumption|].
  apply kept_if_append; [assumption|].
  apply kept_if_append; [assumption|].
  exact H0.
Qed.

Lemma build_child_args_jobs :
  In ("--test-launcher-jobs=" ++ format_d (test_concurrency args))
     (build_child_args args).
Proof.
  apply (build_child_args_phases (fun _ => True)
           (In ("--test-launcher-jobs=" ++ format_d (test_concurrency args))));
    auto using In_list_append, In_list_append_last, In_list_extend.
  intros l Hl. destruct (truthy_str _); auto using In_list_append.
Qed.

Lemma run_child_args_incl (x : string) :
  In x (build_child_args args) -> In x (run_child_args args).
Proof.
  intros H. unfold run_child_args.
  destruct (truthy_str (test_launcher_filter_file args));
    [apply In_list_append|]; exact H.
Qed.

Lemma second_list_append (x y : string) (l : list string) :
  (exists z rest, l = x :: z :: rest) ->
  exists z rest, list_append l y = x :: z :: rest.
Proof. intros [z [rest ->]]. eexists. eexists. reflexivity. Qed.

Lemma second_list_extend (x : string) (l l' : list string) :
  (exists z rest, l = x :: z :: rest) ->
  exists z rest, list_extend l l' = x :: z :: rest.
Proof. intros [z [rest ->]]. eexists. eexists. reflexivity. Qed.

Lemma build_child_args_starts :
  exists z rest,
    build_child_args args = "--test-launcher-retry-limit=0" :: z :: rest.
Proof.
  apply (build_child_args_phases
           (fun l => exists rest, l = "--test-launcher-retry-limit=0" :: rest)
           (fun l => exists z rest,
                       l = "--test-launcher-retry-limit=0" :: z :: rest)
           (fun l => exists z rest,
                       l = "--test-launcher-retry-limit=0" :: z :: rest));
    auto using starts_list_append, second_list_append, second_list_extend.
  - eexists. reflexivity.
  - intros l [rest ->]. destruct rest; eexists; eexists; reflexivity.
  - intros l Hl. destruct (truthy_str _); auto using second_list_append.
Qed.

Lemma build_child_args_retry (v : string) :
  test_launcher_retry_limit args = Some v ->
  v <> "" ->
  starts_then "--test-launcher-retry-limit=0"
    ("--test-launcher-retry-limit=" ++ v) (build_child_args args).
Proof.
  intros Hv Hne.
  apply (build_child_args_phases
           (fun l => exists rest, l = "--test-launcher-retry-limit=0" :: rest)
           (fun l => exists z rest,
                       l = "--test-launcher-retry-limit=0" :: z :: rest)
           (starts_then "--test-launcher-retry-limit=0"
              ("--test-launcher-retry-limit=" ++ v)));
    auto using starts_list_append, second_list_append,
               starts_then_append, starts_then_extend.
  - eexists. reflexivity.
  - intros l [rest ->]. destruct rest; eexists; eexists; reflexivity.
  - intros l Hl. rewrite Hv. cbn [truthy_str unwrap_str].
    apply String.eqb_neq in Hne. rewrite Hne. cbn [negb].
    now apply starts_then_new.
Qed.

End ChildArgs.

(** ** The claims about the test runner *)

(** C9: without [--test-launcher-jobs], or with the value 0, the test
    concurrency is the default 4 and the child arguments hold
    "--test-launcher-jobs=4"; a value other than 0 is the test concurrency
    and is what the jobs argument carries. *)
Theorem default_test_concurrency (package_t : Type) (args : @Args package_t) :
  In ("--test-launcher-jobs=" ++ format_d (test_concurrency args))
     (build_child_args args)
  /\ ((test_launcher_jobs args = None \/ test_launcher_jobs args = Some 0) ->
      test_concurrency args = DEFAULT_TEST_CONCURRENCY
      /\ In "--test-launcher-jobs=4" (build_child_args args)
      /\ In "--test-launcher-jobs=4" (run_child_args args))
  /\ (forall n,
        test_launcher_jobs args = Some n -> n <> 0 ->
        test_concurrency args = n
        /\ In ("--test-launcher-jobs=" ++ format_d n) (build_child_args args)
        /\ In ("--test-launcher-jobs=" ++ format_d n) (run_child_args args)).
Proof.
  pose proof (build_child_args_jobs package_t args) as Hjobs.
  split; [exact Hjobs|]. split.
  - intros Habsent.
    assert (Hc : test_concurrency args = DEFAULT_TEST_CONCURRENCY).
    { unfold test_concurrency. destruct Habsent as [-> | ->]; reflexivity. }
    rewrite Hc in Hjobs. split; [exact Hc|]. split; [exact Hjobs|].
    apply run_child_args_incl. exact Hjobs.
  - intros n Hn Hne.
    assert (Hc : test_concurrency args = n).
    { unfold test_concurrency. rewrite Hn. cbn [truthy_int unwrap_int].
      apply Z.eqb_neq in Hne. now rewrite Hne. }
    rewrite Hc in Hjobs. split; [exact Hc|]. split; [exact Hjobs|].
    apply run_child_args_incl. exact Hjobs.
Qed.

Example child_args_jobs_zero :
  build_child_args (with_jobs 0)
  = ["--test-launcher-retry-limit=0"; "--test-launcher-jobs=4";
     "--test-launcher-summary-output=/data/test_summary.json"]
  /\ run_child_args (with_jobs 8)
     = ["--test-launcher-retry-limit=0"; "--test-launcher-jobs=8";
        "--test-launcher-summary-output=/data/test_summary.json";
        "--test-launcher-filter-file=/data/test_filter.txt"].
Proof. split; reflexivity. Qed.

(** C10 (as amended): the child arguments always start with
    "--test-launcher-retry-limit=0"; when [--test-launcher-retry-limit] is
    given with a value that is not empty, "--test-launcher-retry-limit="
    with that value stands further on in the list, and the first entry
    stays. *)
Theorem retry_limit_appended (package_t : Type) (args : @Args package_t) :
  (exists rest,
     build_child_args args = "--test-launcher-retry-limit=0" :: rest)
  /\ (exists rest,
        run_child_args args = "--test-launcher-retry-limit=0" :: rest)
  /\ (forall v,
        test_launcher_retry_limit args = Some v -> v <> "" ->
        starts_then "--test-launcher-retry-limit=0"
          ("--test-launcher-retry-limit=" ++ v) (build_child_args args)
        /\ starts_then "--test-launcher-retry-limit=0"
             ("--test-launcher-retry-limit=" ++ v) (run_child_args args)).
Proof.
  destruct (build_child_args_starts package_t args) as [z [rest Hstart]].
  split; [eauto|]. split.
  - unfold run_child_args. rewrite Hstart.
    destruct (truthy_str _); eexists; reflexivity.
  - intros v Hv Hne.
    pose proof (build_child_args_retry package_t args v Hv Hne) as H.
    split; [exact H|]. unfold run_child_args.
    destruct (truthy_str _); [apply starts_then_append|]; exact H.
Qed.

Example child_args_retry_limit :
  build_child_args (with_retry_limit "3")
  = ["--test-launcher-retry-limit=0"; "--test-launcher-jobs=4";
     "--test-launcher-retry-limit=3"].
Proof. reflexivity. Qed.

(** C10 (as stated) fails: [--test-launcher-retry-limit] given with an
    empty value appends nothing. *)
Lemma empty_retry_limit_not_appended :
  test_launcher_retry_limit (with_retry_limit "") = Some ""
  /\ build_child_args (with_retry_limit "")
     = ["--test-launcher-retry-limit=0"; "--test-launcher-jobs=4"]
  /\ ~ starts_then "--test-launcher-retry-limit=0"
         ("--test-launcher-retry-limit=" ++ "")
         (build_child_args (with_retry_limit "")).
Proof.
  split; [reflexivity|]. split; [reflexivity|].
  intros [pre [post H]]. vm_compute in H. injection H as H.
  destruct pre as [|a [|b pre]]; cbn in H; [discriminate H| |discriminate H].
  injection H as _ H. discriminate H.
Qed.

Section MainReturns.

Variables package_t world manager target server run_package_args : Type.
Variable ConfigureLogging : @Args package_t -> M world unit.
Variable GetDeploymentTargetForArgs : @Args package_t -> bool -> M world manager.
Variable enter : manager -> M world target.
Variable exit : manager -> option exn -> M world bool.
Variable Start : target -> M world unit.
Variable PutFile : target -> string -> string -> string -> M world unit.
Variable GetFile : target -> string -> string -> string -> M world unit.
Variable SetupTestServer : target -> Z -> string -> M world (option server).
Variable Stop : server -> M world unit.
Variable FromCommonArgs : @Args package_t -> M world run_package_args.
Variable RunPackage :
  string -> target -> package_t -> string -> list string ->
  run_package_args -> M world Z.

Local Abbreviation the_body :=
  (with_body world target server run_package_args Start PutFile GetFile
     SetupTestServer Stop FromCommonArgs RunPackage).

Local Abbreviation the_remapped f :=
  (remapped world target run_package_args RunPackage f).

Local Abbreviation the_main :=
  (main world manager target server run_package_args ConfigureLogging
     GetDeploymentTargetForArgs enter exit Start PutFile GetFile
     SetupTestServer Stop FromCommonArgs RunPackage).

Ltac run_step H :=
  match type of H with
  | context [match ?f ?w with pair _ _ => _ end] =>
      let o := fresh "o" in
      let w' := fresh "w" in
      let E := fresh "E" in
      destruct (f w) as [o w'] eqn:E; destruct o; try discriminate H
  end.

(** What [with_body] returns is what [RunPackage] returned. *)
Lemma with_body_returns (args : @Args package_t) (tgt : target)
    (w w' : world) (rc : Z) :
  the_body args tgt w = (Ok rc, w') ->
  exists rpa w1 w2,
    RunPackage (output_directory args) tgt (package args)
      (package_name args) (run_child_args args) rpa w1 = (Ok rc, w2).
Proof.
  unfold with_body, mbind. intros H.
  do 5 run_step H.
  match goal with
  | E : RunPackage _ _ _ _ _ ?rpa ?w1 = (Ok ?a, ?w2) |- _ =>
      exists rpa, w1, w2; rewrite E
  end.
  do 2 run_step H. unfold ret in H. congruence.
Qed.

(** [with_body] returns when none of its calls raises. *)
Lemma with_body_total (args : @Args package_t) (tgt : target) (w : world) :
  (forall t w, exists w', Start t w = (Ok tt, w')) ->
  (forall t a b c w, exists w', PutFile t a b c w = (Ok tt, w')) ->
  (forall t a b c w, exists w', GetFile t a b c w = (Ok tt, w')) ->
  (forall t n s w, exists srv w', SetupTestServer t n s w = (Ok srv, w')) ->
  (forall s w, exists w', Stop s w = (Ok tt, w')) ->
  (forall a w, exists r w', FromCommonArgs a w = (Ok r, w')) ->
  (forall a t p n c r w, exists rc w', RunPackage a t p n c r w = (Ok rc, w')) ->
  exists rc w', the_body args tgt w = (Ok rc, w').
Proof.
  intros HStart HPut HGet HSetup HStop HFrom HRun.
  unfold with_body, mbind, ret.
  destruct (HStart tgt w) as [w1 ->].
  assert (H2 : exists w2,
             (if truthy_str (test_launcher_filter_file args)
              then PutFile tgt (unwrap_str (test_launcher_filter_file args))
                     TEST_FILTER_PATH (package_name args)
              else fun w => (Ok tt, w)) w1 = (Ok tt, w2)).
  { destruct (truthy_str _); [apply HPut|eauto]. }
  destruct H2 as [w2 ->].
  assert (H3 : exists srv w3,
             (if enable_test_server args
              then SetupTestServer tgt (test_concurrency args)
                     (package_name args)
              else fun w => (Ok None, w)) w2 = (Ok srv, w3)).
  { destruct (enable_test_server args); [apply HSetup|eauto]. }
  destruct H3 as [srv [w3 ->]].
  destruct (HFrom args w3) as [rpa [w4 ->]].
  destruct (HRun (output_directory args) tgt (package args)
              (package_name args) (run_child_args args) rpa w4)
    as [rc [w5 ->]].
  assert (H6 : exists w6,
             match srv with
             | Some s => Stop s
             | None => fun w => (Ok tt, w)
             end w5 = (Ok tt, w6)).
  { destruct srv; [apply HStop|eauto]. }
  destruct H6 as [w6 ->].
  assert (H7 : exists w7,
             (if truthy_str (test_launcher_summary_output args)
              then GetFile tgt TEST_RESULT_PATH
                     (unwrap_str (test_launcher_summary_output args))
                     (package_name args)
              else fun w => (Ok tt, w)) w6 = (Ok tt, w7)).
  { destruct (truthy_str _); [apply HGet|eauto]. }
  destruct H7 as [w7 ->]. eauto.
Qed.

Ltac run_goal :=
  match goal with
  | |- context [match ?f ?w with pair _ _ => _ end] =>
      let o := fresh "o" in
      let w' := fresh "w" in
      destruct (f w) as [o w']; destruct o; try reflexivity
  end.

Lemma with_body_remapped (f : Z -> Z) (args : @Args package_t)
    (tgt : target) (w : world) :
  with_body world target server run_package_args Start PutFile GetFile
    SetupTestServer Stop FromCommonArgs (the_remapped f) args tgt w
  = match the_body args tgt w with
    | (Ok rc, w') => (Ok (f rc), w')
    | (Raise e, w') => (Raise e, w')
    end.
Proof.
  unfold with_body, mbind, remapped, ret.
  repeat run_goal.
Qed.

(** C8: a code that [main] returns is the code that [RunPackage] returned
    for this command line; sending the code of [RunPackage] through any
    function sends the code that [main] returns through the same function;
    and when no collaborator raises, [main] does return such a code. *)
Theorem main_returns_returncode (args : @Args package_t) (w : world) :
  (forall rc w',
     the_main args w = (Ok (Some rc), w') ->
     exists tgt rpa w1 w2,
       RunPackage (output_directory args) tgt (package args)
         (package_name args) (run_child_args args) rpa w1 = (Ok rc, w2))
  /\ (forall f rc w',
        the_main args w = (Ok (Some rc), w') ->
        main world manager target server run_package_args ConfigureLogging
          GetDeploymentTargetForArgs enter exit Start PutFile GetFile
          SetupTestServer Stop FromCommonArgs (the_remapped f) args w
        = (Ok (Some (f rc)), w'))
  /\ ((forall a w, exists w', ConfigureLogging a w = (Ok tt, w')) ->
      (forall a k w, exists m w',
          GetDeploymentTargetForArgs a k w = (Ok m, w')) ->
      (forall m w, exists t w', enter m w = (Ok t, w')) ->
      (forall m w, exists b w', exit m None w = (Ok b, w')) ->
      (forall t w, exists w', Start t w = (Ok tt, w')) ->
      (forall t a b c w, exists w', PutFile t a b c w = (Ok tt, w')) ->
      (forall t a b c w, exists w', GetFile t a b c w = (Ok tt, w')) ->
      (forall t n s w, exists srv w',
          SetupTestServer t n s w = (Ok srv, w')) ->
      (forall s w, exists w', Stop s w = (Ok tt, w')) ->
      (forall a w, exists r w', FromCommonArgs a w = (Ok r, w')) ->
      (forall a t p n c r w, exists rc w',
          RunPackage a t p n c r w = (Ok rc, w')) ->
      exists rc w' tgt rpa w1 w2,
        the_main args w = (Ok (Some rc), w')
        /\ RunPackage (output_directory args) tgt (package args)
             (package_name args) (run_child_args args) rpa w1 = (Ok rc, w2)).
Proof.
  split; [|split].
  - intros rc w' H. unfold main, mbind in H.
    do 3 run_step H.
    match type of H with
    | context [with_body _ _ _ _ _ _ _ _ _ _ _ _ ?t ?w0] =>
        destruct (the_body args t w0) as [[code|e] wb] eqn:Hbody
    end.
    + run_step H. injection H as <- _.
      match type of Hbody with
      | with_body _ _ _ _ _ _ _ _ _ _ _ _ ?t _ = _ => exists t
      end.
      exact (with_body_returns _ _ _ _ _ Hbody).
    + run_step H. match type of H with
                  | context [if ?b then _ else _] => destruct b
                  end; discriminate H.
  - intros f rc w' H. unfold main, mbind in H |- *.
    do 3 run_step H. rewrite with_body_remapped.
    match type of H with
    | context [with_body _ _ _ _ _ _ _ _ _ _ _ _ ?t ?w0] =>
        destruct (the_body args t w0) as [[code|e] wb]
    end.
    + run_step H. injection H as <- <-. reflexivity.
    + run_step H. match type of H with
                  | context [if ?b then _ else _] => destruct b
                  end; discriminate H.
  - intros HCL HGD HEnter HExit HStart HPut HGet HSetup HStop HFrom HRun.
    unfold main, mbind.
    destruct (HCL args w) as [w1 ->].
    destruct (HGD args (require_kvm args) w1) as [mgr [w2 ->]].
    destruct (HEnter mgr w2) as [tgt [w3 ->]].
    destruct (with_body_total args tgt w3 HStart HPut HGet HSetup HStop
                HFrom HRun) as [rc [w4 Hbody]].
    rewrite Hbody.
    destruct (HExit mgr w4) as [b [w5 ->]].
    destruct (with_body_returns _ _ _ _ _ Hbody) as [rpa [w6 [w7 Hrun]]].
    exists rc, w5, tgt, rpa, w6, w7. split; [reflexivity|exact Hrun].
Qed.

End MainReturns.

Example main_sample_run :
  TestRunner.sample_main 7 (with_jobs 2) []
  = (Ok (Some 7),
     ["ConfigureLogging"; "GetDeploymentTargetForArgs"; "__enter__";
      "Start"; "PutFile"; "SetupTestServer"; "FromCommonArgs"; "RunPackage";
      "Stop"; "GetFile"; "__exit__"]).
Proof. reflexivity. Qed.

(** * Further properties of the size differ *)

(** ** The loop *)

Lemma loop_body_ok_inv (b a : dict PackageSizes) (st st' : LoopState)
    (p : string) :
  loop_body b a st p = Ok st' ->
  exists sa sb,
    dict_get p a = Some sa /\ dict_get p b = Some sb
    /\ st' =
       {| ls_compressed :=
            dict_set p (compressed sa - compressed sb) (ls_compressed st);
          ls_uncompressed :=
            dict_set p (uncompressed sa - uncompressed sb)
              (ls_uncompressed st);
          ls_status_code :=
            if compressed sa - compressed sb >=? _MAX_DELTA_BYTES then 1
            else ls_status_code st;
          ls_summary :=
            if compressed sa - compressed sb >=? _MAX_DELTA_BYTES
            then (if (ls_status_code st =? 1)
                     && (ls_summary st =? "")%string
                  then HEADER else ls_summary st)
                 ++ grew_line p (compressed sa - compressed sb)
            else ls_summary st |}.
Proof.
  intros H.
  destruct (compressed_delta b a p) as [d|] eqn:Hd;
    [|rewrite (loop_body_raises_iff b a st p Hd) in H; discriminate].
  unfold compressed_delta in Hd.
  destruct (dict_get p a) as [sa|] eqn:Ha; [|discriminate].
  destruct (dict_get p b) as [sb|] eqn:Hb; [|discriminate].
  rewrite (loop_body_eq b a st p sa sb Ha Hb) in H. injection H as <-.
  exists sa, sb. auto.
Qed.

(** X1: the status code only moves from 0 to 1 during the loop: from a
    state that has failed the loop ends in a state that has failed, and
    otherwise the final status code is the initial one or 1. *)
Theorem loop_status_monotone (b a : dict PackageSizes)
    (names : list string) (st st' : LoopState) :
  loop b a names st = Ok st' ->
  (ls_status_code st' = ls_status_code st \/ ls_status_code st' = 1)
  /\ (ls_status_code st = 1 -> ls_status_code st' = 1).
Proof.
  revert st. induction names as [|p names IH]; intros st H.
  - injection H as <-. auto.
  - cbn [loop] in H.
    destruct (loop_body b a st p) as [st1|e] eqn:Hbody; [|discriminate].
    cbn [bind] in H. destruct (IH _ H) as [Hor Hone].
    destruct (loop_body_ok_inv _ _ _ _ _ Hbody) as [sa [sb [_ [_ ->]]]].
    cbn [ls_status_code] in Hor, Hone.
    destruct (compressed sa - compressed sb >=? _MAX_DELTA_BYTES).
    + specialize (Hone eq_refl). auto.
    + auto.
Qed.

(** A failed state, then two packages that do not grow. *)
Lemma loop_status_monotone_witness :
  exists st',
    loop two_before two_same (dict_keys two_before) failed_state = Ok st'
    /\ ls_status_code st' = 1.
Proof.
  eexists. split; [reflexivity|].
  apply (loop_status_monotone two_before two_same (dict_keys two_before)
           failed_state _ eq_refl).
  reflexivity.
Defined.

(** ** The packages of the report *)

Lemma dict_keys_set_new {V} (k : string) (v : V) (d : dict V) :
  ~ In k (dict_keys d) ->
  dict_keys (dict_set k v d) = (dict_keys d ++ [k])%list.
Proof.
  induction d as [|[k' v'] d IH]; intros Hnew; [reflexivity|].
  cbn in Hnew |- *. destruct (String.eqb_spec k' k) as [->|Hne].
  - exfalso. apply Hnew. now left.
  - cbn. f_equal. apply IH. tauto.
Qed.

Lemma loop_keys (b a : dict PackageSizes) (names : list string) :
  forall st st',
    loop b a names st = Ok st' ->
    NoDup names ->
    (forall p, In p names ->
       ~ In p (dict_keys (ls_compressed st))
       /\ ~ In p (dict_keys (ls_uncompressed st))) ->
    dict_keys (ls_compressed st')
    = (dict_keys (ls_compressed st) ++ names)%list
    /\ dict_keys (ls_uncompressed st')
       = (dict_keys (ls_uncompressed st) ++ names)%list.
Proof.
  induction names as [|p names IH]; intros st st' H Hnd Hfresh.
  - injection H as <-. now rewrite !app_nil_r.
  - cbn [loop] in H.
    destruct (loop_body b a st p) as [st1|e] eqn:Hbody; [|discriminate].
    cbn [bind] in H. inversion Hnd as [|p' names' Hnotin Hnd']; subst.
    destruct (loop_body_ok_inv _ _ _ _ _ Hbody) as [sa [sb [_ [_ Hst1]]]].
    destruct (Hfresh p (or_introl eq_refl)) as [Hc Hu].
    assert (Hk1 : dict_keys (ls_compressed st1)
                  = (dict_keys (ls_compressed st) ++ [p])%list)
      by (rewrite Hst1; cbn [ls_compressed]; now apply dict_keys_set_new).
    assert (Hk2 : dict_keys (ls_uncompressed st1)
                  = (dict_keys (ls_uncompressed st) ++ [p])%list)
      by (rewrite Hst1; cbn [ls_uncompressed]; now apply dict_keys_set_new).
    destruct (IH st1 st' H Hnd') as [Hc' Hu'].
    + intros q Hq. rewrite Hk1, Hk2, !in_app_iff.
      destruct (Hfresh q (or_intror Hq)) as [Hqc Hqu].
      split; intros [Hin|[Heq|[]]]; try tauto; subst; contradiction.
    + rewrite Hc', Hu', Hk1, Hk2, <- !app_assoc. split; reflexivity.
Qed.

(** X2: on snapshots with the same packages the two mappings of the report
    hold the package names of the before snapshot and no other, in the
    order of the before snapshot. *)
Theorem report_packages
    (read : string -> outcome (dict PackageSizes))
    (before_file after_file : string)
    (before_sizes after_sizes : dict PackageSizes) :
  read before_file = Ok before_sizes ->
  read after_file = Ok after_sizes ->
  same_packages before_sizes after_sizes ->
  NoDup (dict_keys before_sizes) ->
  exists g,
    ComputePackageDiffs read before_file after_file = Ok g
    /\ dict_keys (growth_compressed g) = dict_keys before_sizes
    /\ dict_keys (growth_uncompressed g) = dict_keys before_sizes.
Proof.
  intros Hb Ha Hsame Hnd.
  destruct (compute_diffs_ok _ _ Hsame) as [st [Hrun [Hcomp _]]].
  exists (report st). rewrite (ComputePackageDiffs_read _ _ _ _ _ Hb Ha).
  split; [assumption|].
  destruct (loop_keys _ _ _ _ _ Hrun Hnd) as [Hc Hu]; [intros p _; auto|].
  cbn [report growth_compressed growth_uncompressed]. now rewrite Hc, Hu.
Qed.

(** The after snapshot lists the two packages the other way round. *)
Lemma report_packages_witness :
  exists g,
    ComputePackageDiffs (sample_reader two_before two_grown)
      "before.json" "after.json" = Ok g
    /\ dict_keys (growth_compressed g) = ["pkgA"; "pkgB"]
    /\ dict_keys (growth_uncompressed g) = ["pkgA"; "pkgB"].
Proof.
  apply (report_packages (sample_reader two_before two_grown)
           "before.json" "after.json" two_before two_grown eq_refl eq_refl
           (sample_same_packages two_before two_grown eq_refl)).
  repeat constructor; cbn; intros H;
    repeat (destruct H as [H|H]; [discriminate H|]); exact H.
Defined.

(** ** What [ComputePackageDiffs] raises *)

(** X3: [ComputePackageDiffs] raises in three cases only: reading the
    before file raised, reading the after file raised, or the two snapshots
    do not hold the same packages and the assertion fails.  The loop never
    raises a [KeyError]. *)
Theorem ComputePackageDiffs_raises
    (read : string -> outcome (dict PackageSizes))
    (before_file after_file : string) (e : exn) :
  ComputePackageDiffs read before_file after_file = Raise e <->
  read before_file = Raise e
  \/ (exists before_sizes,
        read before_file = Ok before_sizes /\ read after_file = Raise e)
  \/ (exists before_sizes after_sizes,
        read before_file = Ok before_sizes
        /\ read after_file = Ok after_sizes
        /\ ~ same_packages before_sizes after_sizes
        /\ e = AssertionError (dict_keys before_sizes)
                 (dict_keys after_sizes)).
Proof.
  unfold ComputePackageDiffs.
  destruct (read before_file) as [b|eb] eqn:Hb; cbn [bind].
  - destruct (read after_file) as [a|ea] eqn:Ha; cbn [bind].
    + split.
      * intros H. right. right. exists b, a.
        unfold compute_diffs in H.
        destruct (keys_eq (dict_keys b) (dict_keys a)) eqn:E.
        -- destruct (compute_diffs_ok b a (proj1 (keys_eq_spec _ _) E))
             as [st [Hrun _]].
           rewrite Hrun in H. discriminate H.
        -- injection H as <-. repeat split; try reflexivity.
           intros Hsame.
           pose proof (proj2 (keys_eq_spec _ _) Hsame) as E'. congruence.
      * intros [H|[[b' [_ H]]|[b' [a' [Hb' [Ha' [Hdiff ->]]]]]]];
          try discriminate H.
        injection Hb' as <-. injection Ha' as <-.
        unfold compute_diffs.
        destruct (keys_eq (dict_keys b) (dict_keys a)) eqn:E;
          [|reflexivity].
        exfalso. apply Hdiff. exact (proj1 (keys_eq_spec _ _) E).
    + split.
      * intros H. injection H as <-. right. left. eauto.
      * intros [H|[[b' [_ H]]|[b' [a' [_ [H _]]]]]]; congruence.
  - split.
    + intros H. injection H as <-. now left.
    + intros [H|[[b' [H _]]|[b' [a' [H _]]]]]; congruence.
Qed.

(** ** The order of the after snapshot *)

Lemma loop_same_lookups (b a a' : dict PackageSizes) :
  (forall k, dict_get k a = dict_get k a') ->
  forall names st, loop b a names st = loop b a' names st.
Proof.
  intros Hget names. induction names as [|p names IH]; intros st;
    [reflexivity|].
  cbn [loop].
  assert (Hbody : loop_body b a st p = loop_body b a' st p)
    by (unfold loop_body, dict_item; now rewrite Hget).
  rewrite Hbody. destruct (loop_body b a' st p); cbn [bind]; auto.
Qed.

Lemma keys_eq_same_lookups (b a a' : dict PackageSizes) :
  (forall k, dict_get k a = dict_get k a') ->
  keys_eq (dict_keys b) (dict_keys a) = keys_eq (dict_keys b) (dict_keys a').
Proof.
  intros Hget.
  assert (Hin : forall k, In k (dict_keys a) <-> In k (dict_keys a')).
  { intros k. rewrite !dict_get_keys, Hget. reflexivity. }
  destruct (keys_eq (dict_keys b) (dict_keys a)) eqn:E,
           (keys_eq (dict_keys b) (dict_keys a')) eqn:E'; try reflexivity.
  - pose proof (proj1 (keys_eq_spec _ _) E) as H.
    assert (H' : keys_eq (dict_keys b) (dict_keys a') = true)
      by (apply keys_eq_spec; intros k; rewrite <- Hin; apply H).
    congruence.
  - pose proof (proj1 (keys_eq_spec _ _) E') as H.
    assert (H' : keys_eq (dict_keys b) (dict_keys a) = true)
      by (apply keys_eq_spec; intros k; rewrite Hin; apply H).
    congruence.
Qed.

(** X4: the result depends on the after snapshot through its lookups only:
    two after snapshots that give every package name the same entry, such
    as one snapshot listed in two orders, give the same report, or both
    fail the assertion, each with its own list of keys in the error. *)
Theorem after_order_irrelevant
    (read read' : string -> outcome (dict PackageSizes))
    (before_file after_file : string)
    (before_sizes after_sizes after_sizes' : dict PackageSizes) :
  read before_file = Ok before_sizes ->
  read after_file = Ok after_sizes ->
  read' before_file = Ok before_sizes ->
  read' after_file = Ok after_sizes' ->
  (forall k, dict_get k after_sizes = dict_get k after_sizes') ->
  ComputePackageDiffs read' before_file after_file
  = match ComputePackageDiffs read before_file after_file with
    | Ok g => Ok g
    | Raise (AssertionError kb _) =>
        Raise (AssertionError kb (dict_keys after_sizes'))
    | Raise e => Raise e
    end.
Proof.
  intros Hb Ha Hb' Ha' Hget.
  rewrite (ComputePackageDiffs_read _ _ _ _ _ Hb Ha),
          (ComputePackageDiffs_read _ _ _ _ _ Hb' Ha').
  unfold compute_diffs.
  rewrite <- (keys_eq_same_lookups before_sizes _ _ Hget),
          <- (loop_same_lookups before_sizes _ _ Hget).
  destruct (keys_eq (dict_keys before_sizes) (dict_keys after_sizes)) eqn:E;
    [|reflexivity].
  destruct (compute_diffs_ok _ _ (proj1 (keys_eq_spec _ _) E))
    as [st [-> _]].
  reflexivity.
Qed.

(** [two_grown] and the same entries in the order of [two_before]. *)
Lemma after_order_irrelevant_witness :
  ComputePackageDiffs
    (sample_reader two_before
       [("pkgA", sizes 12388 200); ("pkgB", sizes 20300 400)])
    "before.json" "after.json"
  = ComputePackageDiffs (sample_reader two_before two_grown)
      "before.json" "after.json".
Proof.
  rewrite (after_order_irrelevant (sample_reader two_before two_grown)
             (sample_reader two_before
                [("pkgA", sizes 12388 200); ("pkgB", sizes 20300 400)])
             "before.json" "after.json" two_before two_grown
             [("pkgA", sizes 12388 200); ("pkgB", sizes 20300 400)]
             eq_refl eq_refl eq_refl eq_refl).
  - reflexivity.
  - intros k. unfold two_grown. cbn [dict_get].
    destruct (String.eqb_spec "pkgB" k) as [Hb|Hb];
      destruct (String.eqb_spec "pkgA" k) as [Ha|Ha];
      try reflexivity. rewrite <- Hb in Ha. discriminate Ha.
Defined.

(** ** Runs in which nothing fails *)

Lemma failing_nil (b a : dict PackageSizes) (names : list string) :
  (forall p d, compressed_delta b a p = Some d -> d < _MAX_DELTA_BYTES) ->
  failing b a names = [].
Proof.
  intros Hall. induction names as [|p names IH]; [reflexivity|].
  cbn [failing]. destruct (compressed_delta b a p) as [d|] eqn:Hd;
    [|assumption].
  specialize (Hall p d Hd).
  destruct (d >=? _MAX_DELTA_BYTES) eqn:Hge; [|assumption].
  apply Z.geb_le in Hge. lia.
Qed.

Lemma passing_state (b a : dict PackageSizes) :
  same_packages b a ->
  (forall p d, compressed_delta b a p = Some d -> d < _MAX_DELTA_BYTES) ->
  exists st,
    loop b a (dict_keys b) loop_init = Ok st
    /\ compute_diffs b a = Ok (report st)
    /\ ls_status_code st = 0
    /\ growth_summary (report st) = passing_summary.
Proof.
  intros Hsame Hall.
  destruct (compute_diffs_ok _ _ Hsame) as [st [Hrun [Hcomp [Hsum Hst]]]].
  rewrite (failing_nil _ _ _ Hall) in Hsum, Hst.
  exists st. repeat split; try assumption.
  cbn [report growth_summary]. rewrite Hsum. vm_compute. reflexivity.
Qed.

(** X5: on snapshots with the same packages, when every compressed growth
    is below the threshold the status code is 0 and the summary is the
    pointer to the trybot document and nothing else: no header and no
    package line. *)
Theorem passing_report
    (read : string -> outcome (dict PackageSizes))
    (before_file after_file : string)
    (before_sizes after_sizes : dict PackageSizes) :
  read before_file = Ok before_sizes ->
  read after_file = Ok after_sizes ->
  same_packages before_sizes after_sizes ->
  (forall p d, compressed_delta before_sizes after_sizes p = Some d ->
               d < _MAX_DELTA_BYTES) ->
  exists g,
    ComputePackageDiffs read before_file after_file = Ok g
    /\ growth_status_code g = 0
    /\ growth_summary g = passing_summary
    /\ growth_archive_filenames g = []
    /\ growth_links g = [].
Proof.
  intros Hb Ha Hsame Hall.
  destruct (passing_state _ _ Hsame Hall) as [st [_ [Hcomp [Hst Hsum]]]].
  exists (report st). rewrite (ComputePackageDiffs_read _ _ _ _ _ Hb Ha).
  repeat split; assumption.
Qed.

(** Compressed growth of 12287 bytes. *)
Lemma passing_report_witness :
  exists g,
    ComputePackageDiffs (sample_reader one_before one_below)
      "before.json" "after.json" = Ok g
    /\ growth_status_code g = 0
    /\ growth_summary g = passing_summary.
Proof.
  destruct (passing_report (sample_reader one_before one_below)
              "before.json" "after.json" one_before one_below
              eq_refl eq_refl
              (sample_same_packages one_before one_below eq_refl))
    as [g [Hrun [Hst [Hsum _]]]].
  - intros p d. unfold compressed_delta, one_before, one_below.
    cbn [dict_get].
    destruct (String.eqb "pkgA" p); [|discriminate].
    intros H. injection H as <-. reflexivity.
  - exists g. auto.
Defined.

(** X6: a sizes file compared with itself passes: every package of the
    snapshot has growth 0 in both mappings, the status code is 0 and the
    summary has no package line. *)
Theorem same_file_passes
    (read : string -> outcome (dict PackageSizes))
    (sizes_file : string) (snapshot : dict PackageSizes) :
  read sizes_file = Ok snapshot ->
  exists g,
    ComputePackageDiffs read sizes_file sizes_file = Ok g
    /\ growth_status_code g = 0
    /\ growth_summary g = passing_summary
    /\ forall p, In p (dict_keys snapshot) ->
         dict_get p (growth_compressed g) = Some 0
         /\ dict_get p (growth_uncompressed g) = Some 0.
Proof.
  intros Hread.
  assert (Hsame : same_packages snapshot snapshot) by (intros k; reflexivity).
  assert (Hzero : forall p d,
             compressed_delta snapshot snapshot p = Some d -> d = 0).
  { intros p d. unfold compressed_delta.
    destruct (dict_get p snapshot); [|discriminate].
    intros H. injection H as <-. lia. }
  destruct (passing_state snapshot snapshot Hsame)
    as [st [Hrun [Hcomp [Hst Hsum]]]].
  { intros p d Hd. rewrite (Hzero p d Hd). reflexivity. }
  exists (report st).
  rewrite (ComputePackageDiffs_read _ _ _ _ _ Hread Hread).
  split; [assumption|]. split; [assumption|]. split; [assumption|].
  intros p Hin.
  destruct (proj1 (loop_growth _ _ _ _ _ Hrun p) Hin) as [Hc Hu].
  cbn [report growth_compressed growth_uncompressed]. rewrite Hc, Hu.
  apply dict_get_keys in Hin as [s Hs].
  unfold compressed_delta, uncompressed_delta. rewrite Hs.
  split; f_equal; lia.
Qed.

(** [two_before] against itself. *)
Lemma same_file_passes_witness :
  exists g,
    ComputePackageDiffs (sample_reader two_before two_grown)
      "before.json" "before.json" = Ok g
    /\ growth_status_code g = 0
    /\ dict_get "pkgB" (growth_compressed g) = Some 0.
Proof.
  destruct (same_file_passes (sample_reader two_before two_grown)
              "before.json" two_before eq_refl)
    as [g [Hrun [Hst [_ Hall]]]].
  exists g. split; [exact Hrun|]. split; [exact Hst|].
  apply Hall. right. now left.
Defined.

(** ** Missing inputs and [--verbose] *)

(** X7: [main] looks for the two build directories, then for the before
    sizes file, then for the after sizes file, and raises for the first
    that is missing, with a message that names it.  Nothing has then been
    written to the standard error stream or to a file, and no exit code is
    returned. *)
Theorem main_reports_missing_input
    (read : string -> outcome (dict PackageSizes)) (sizes_file cwd : string)
    (isdir isfile : string -> bool)
    (open_raises : string -> option exn) (dump_raises : Growth -> option exn)
    (args : BinarySizeDiffer.Args) (w : World) :
  let w0 := if verbose args then echo_args cwd args w else w in
  let run :=
    BinarySizeDiffer.main read sizes_file cwd isdir isfile open_raises dump_raises args w in
  (files w0 = files w /\ stderr w0 = stderr w)
  /\ (isdir (before_dir args) = false \/ isdir (after_dir args) = false ->
      run = (Raise (Exception
                      ("Could not find build output directory "
                         ++ quoted (before_dir args) ++ " or "
                         ++ quoted (after_dir args) ++ ".")), w0))
  /\ (isdir (before_dir args) = true -> isdir (after_dir args) = true ->
      isfile (before_sizes_file sizes_file args) = false ->
      run = (Raise (Exception
                      ("Could not find before sizes file: "
                         ++ quoted (before_sizes_file sizes_file args))),
             w0))
  /\ (isdir (before_dir args) = true -> isdir (after_dir args) = true ->
      isfile (before_sizes_file sizes_file args) = true ->
      isfile (after_sizes_file sizes_file args) = false ->
      run = (Raise (Exception
                      ("Could not find after sizes file: "
                         ++ quoted (after_sizes_file sizes_file args))),
             w0)).
Proof.
  intros w0 run. subst run. unfold BinarySizeDiffer.main. fold w0. split; [|split; [|split]].
  - subst w0. destruct (verbose args); split; reflexivity.
  - intros [H|H]; rewrite H; cbn [negb orb]; [reflexivity|].
    now rewrite orb_true_r.
  - intros Hb Ha Hf. now rewrite Hb, Ha, Hf.
  - intros Hb Ha Hf Hf'. now rewrite Hb, Ha, Hf, Hf'.
Qed.




(** * Further properties of the test runner *)

(** ** The shape of the child arguments *)

Lemma if_list_append (c : bool) (l : list string) (y : string) :
  (if c then list_append l y else l) = (l ++ opt c [y])%list.
Proof. destruct c; cbn; [reflexivity|now rewrite app_nil_r]. Qed.

Lemma if_list_append2 (c : bool) (l : list string) (y z : string) :
  (if c then list_append (list_append l y) z else l)
  = (l ++ opt c [y; z])%list.
Proof.
  destruct c; cbn; [|now rewrite app_nil_r].
  unfold list_append. now rewrite <- app_assoc.
Qed.

Lemma if_list_extend (c : bool) (l l' : list string) :
  (if c then list_extend l l' else l) = (l ++ opt c l')%list.
Proof. destruct c; cbn; [reflexivity|now rewrite app_nil_r]. Qed.

Lemma match_list_extend (l l' : list string) :
  match l' with [] => l | _ :: _ => list_extend l l' end = (l ++ l')%list.
Proof. destruct l'; [now rewrite app_nil_r|reflexivity]. Qed.

Lemma opt_truthy_list (o : option (list string)) :
  opt (truthy_list o) (unwrap_list o) = unwrap_list o.
Proof. destruct o as [[|x l]|]; reflexivity. Qed.

(** The child arguments are the generated arguments, then the values of
    [--child-arg], then the positional child arguments. *)
Lemma build_child_args_shape (package_t : Type) (args : @Args package_t) :
  build_child_args args
  = (generated_args args ++ unwrap_list (child_arg args)
       ++ child_args args)%list.
Proof.
  unfold build_child_args. cbv zeta.
  rewrite match_list_extend, if_list_extend, opt_truthy_list.
  rewrite !if_list_append, if_list_append2.
  unfold list_append, generated_args. cbn [app].
  rewrite <- !app_assoc. cbn [app]. now rewrite <- !app_assoc.
Qed.

(** ** The calls that [main] makes *)

Ltac trace_unfold :=
  unfold traced_main, main, with_body, mbind, ret, traced.

Ltac trace_call fails name :=
  destruct (fails name) eqn:?; cbn.

Ltac trace_cases fails args :=
  trace_unfold;
  trace_call fails "ConfigureLogging";
  [|trace_call fails "GetDeploymentTargetForArgs";
    [|trace_call fails "__enter__";
      [|trace_call fails "Start";
        [|destruct (truthy_str (test_launcher_filter_file args)); cbn;
          [trace_call fails "PutFile"; [|idtac]|idtac];
          (destruct (enable_test_server args); cbn;
           [trace_call fails "SetupTestServer"; [|idtac]|idtac]);
          (trace_call fails "FromCommonArgs";
           [|trace_call fails "RunPackage"; [|idtac]])]]]].

Example traced_main_sample :
  traced_main (only_fails "RunPackage") false 7 (with_jobs 2) []
  = (Raise (OtherError "RuntimeError" "RunPackage"),
     ["ConfigureLogging"; "GetDeploymentTargetForArgs"; "__enter__";
      "Start"; "PutFile"; "SetupTestServer"; "FromCommonArgs"; "RunPackage";
      "__exit__"]).
Proof. reflexivity. Qed.

Section Traces.

Variable package_t : Type.
Variable fails : string -> bool.
Variables (suppress : bool) (code : Z) (args : @Args package_t).

Local Abbreviation the_run := (traced_main fails suppress code args []).

Ltac trace_finish :=
  repeat split; unfold not; intros;
  try congruence;
  try reflexivity;
  repeat match goal with
         | H : _ /\ _ |- _ => destruct H
         | H : In _ _ |- _ => cbn in H
         | H : _ \/ _ |- _ => destruct H
         | H : False |- _ => destruct H
         | H : @eq string _ _ |- _ => discriminate H
         | H : @eq (outcome _) _ _ |- _ => discriminate H
         end;
  try congruence;
  try solve [cbn; repeat (first [left; reflexivity | right])].

Ltac trace_leaf Hr r :=
  solve [repeat (match type of Hr with
                 | context [if ?b then _ else _] => destruct b; cbn in Hr
                 end);
         subst r; cbn; trace_finish].

(** The facts about the calls of one run, found by following every path
    through [main]. *)
Lemma trace_facts :
  (fails "ConfigureLogging" = false ->
   fails "GetDeploymentTargetForArgs" = false ->
   fails "__enter__" = false ->
   last (snd the_run) "" = "__exit__"
   /\ ~ In "__exit__" (calls_before "__exit__" (snd the_run))
   /\ calls_after "__exit__" (snd the_run) = [])
  /\ (fails "ConfigureLogging" = true
      \/ fails "GetDeploymentTargetForArgs" = true
      \/ fails "__enter__" = true ->
      ~ In "__exit__" (snd the_run) /\ ~ In "RunPackage" (snd the_run))
  /\ (fails "RunPackage" = true ->
      ~ In "Stop" (snd the_run) /\ ~ In "GetFile" (snd the_run)
      /\ forall rc, fst the_run <> Ok (Some rc))
  /\ (~ In "Start" (calls_after "RunPackage" (snd the_run))
      /\ ~ In "PutFile" (calls_after "RunPackage" (snd the_run))
      /\ ~ In "SetupTestServer" (calls_after "RunPackage" (snd the_run))
      /\ ~ In "RunPackage" (calls_after "RunPackage" (snd the_run))
      /\ ~ In "Stop" (calls_before "RunPackage" (snd the_run))
      /\ ~ In "GetFile" (calls_before "RunPackage" (snd the_run)))
  /\ ((In "PutFile" (snd the_run) ->
       truthy_str (test_launcher_filter_file args) = true)
      /\ (In "GetFile" (snd the_run) ->
          truthy_str (test_launcher_summary_output args) = true)
      /\ (In "SetupTestServer" (snd the_run) ->
          enable_test_server args = true)
      /\ (In "Stop" (snd the_run) ->
          enable_test_server args = true
          /\ In "SetupTestServer" (snd the_run)
          /\ fails "SetupTestServer" = false)).
Proof.
  remember the_run as r eqn:Hr.
  unfold traced_main, main, with_body, mbind, ret, traced in Hr.
  cbn in Hr.
  destruct (fails "ConfigureLogging") eqn:?; cbn in Hr;
    [trace_leaf Hr r|].
  destruct (fails "GetDeploymentTargetForArgs") eqn:?; cbn in Hr;
    [trace_leaf Hr r|].
  destruct (fails "__enter__") eqn:?; cbn in Hr; [trace_leaf Hr r|].
  destruct (fails "__exit__") eqn:?; cbn in Hr.
  all: destruct (fails "Start") eqn:?; cbn in Hr; [trace_leaf Hr r|].
  all: destruct (truthy_str (test_launcher_filter_file args)) eqn:?;
    cbn in Hr;
    [destruct (fails "PutFile") eqn:?; cbn in Hr; [trace_leaf Hr r|]|].
  all: destruct (enable_test_server args) eqn:?; cbn in Hr;
    [destruct (fails "SetupTestServer") eqn:?; cbn in Hr;
     [trace_leaf Hr r|]|].
  all: destruct (fails "FromCommonArgs") eqn:?; cbn in Hr;
    [trace_leaf Hr r|].
  all: destruct (fails "RunPackage") eqn:?; cbn in Hr; [trace_leaf Hr r|].
  all: lazymatch type of Hr with
       | context [fails "Stop"] =>
           destruct (fails "Stop") eqn:?; cbn in Hr; [trace_leaf Hr r|]
       | _ => idtac
       end.
  all: destruct (truthy_str (test_launcher_summary_output args)) eqn:?;
    cbn in Hr;
    [destruct (fails "GetFile") eqn:?; cbn in Hr; [trace_leaf Hr r|]|].
  all: trace_leaf Hr r.
Qed.

End Traces.

(** X13: once [__enter__] has returned, [__exit__] is called exactly once
    and it is the last call of the run, whatever raises in between; when
    the run stops before that, [__exit__] is not called and the package is
    not run. *)
Theorem exit_runs_once_entered (package_t : Type) (fails : string -> bool)
    (suppress : bool) (code : Z) (args : @Args package_t) :
  (fails "ConfigureLogging" = false ->
   fails "GetDeploymentTargetForArgs" = false ->
   fails "__enter__" = false ->
   last (snd (traced_main fails suppress code args [])) "" = "__exit__"
   /\ calls_after "__exit__" (snd (traced_main fails suppress code args []))
      = [])
  /\ (fails "ConfigureLogging" = true
      \/ fails "GetDeploymentTargetForArgs" = true
      \/ fails "__enter__" = true ->
      ~ In "__exit__" (snd (traced_main fails suppress code args []))
      /\ ~ In "RunPackage" (snd (traced_main fails suppress code args []))).
Proof.
  destruct (trace_facts package_t fails suppress code args)
    as [Hexit [Hnone _]].
  split; [|exact Hnone].
  intros H1 H2 H3. destruct (Hexit H1 H2 H3) as [Hlast [_ Hafter]]. auto.
Qed.

(** X14: when [RunPackage] raises, the test server is not stopped and the
    summary is not fetched, and [main] returns no exit code. *)
Theorem failed_run_skips_cleanup (package_t : Type) (fails : string -> bool)
    (suppress : bool) (code : Z) (args : @Args package_t) :
  fails "RunPackage" = true ->
  ~ In "Stop" (snd (traced_main fails suppress code args []))
  /\ ~ In "GetFile" (snd (traced_main fails suppress code args []))
  /\ forall rc, fst (traced_main fails suppress code args []) <> Ok (Some rc).
Proof.
  destruct (trace_facts package_t fails suppress code args)
    as [_ [_ [Hrun _]]].
  exact Hrun.
Qed.

(** A run with test server and summary output in which only [RunPackage]
    raises. *)
Lemma failed_run_skips_cleanup_witness :
  In "SetupTestServer"
    (snd (traced_main (only_fails "RunPackage") false 7 (with_jobs 2) []))
  /\ ~ In "Stop"
         (snd (traced_main (only_fails "RunPackage") false 7 (with_jobs 2)
                 []))
  /\ ~ In "GetFile"
         (snd (traced_main (only_fails "RunPackage") false 7 (with_jobs 2)
                 [])).
Proof.
  destruct (failed_run_skips_cleanup unit (only_fails "RunPackage") false 7
              (with_jobs 2) eq_refl) as [Hstop [Hget _]].
  split; [|split; assumption].
  cbn. do 5 right. now left.
Defined.

(** X15: the package is run at most once; the target is started, the
    filter file pushed and the test server set up before the package is
    run, never after; the test server is stopped and the summary fetched
    after the package was run, never before. *)
Theorem calls_around_run (package_t : Type) (fails : string -> bool)
    (suppress : bool) (code : Z) (args : @Args package_t) :
  ~ In "Start"
      (calls_after "RunPackage"
         (snd (traced_main fails suppress code args [])))
  /\ ~ In "PutFile"
         (calls_after "RunPackage"
            (snd (traced_main fails suppress code args [])))
  /\ ~ In "SetupTestServer"
         (calls_after "RunPackage"
            (snd (traced_main fails suppress code args [])))
  /\ ~ In "RunPackage"
         (calls_after "RunPackage"
            (snd (traced_main fails suppress code args [])))
  /\ ~ In "Stop"
         (calls_before "RunPackage"
            (snd (traced_main fails suppress code args [])))
  /\ ~ In "GetFile"
         (calls_before "RunPackage"
            (snd (traced_main fails suppress code args []))).
Proof.
  destruct (trace_facts package_t fails suppress code args)
    as [_ [_ [_ [Horder _]]]].
  exact Horder.
Qed.

(** X16: a file is pushed only when a filter file is given, one is fetched
    only when a summary output is given, and a test server is set up only
    with [--enable-test-server]; [Stop] is called only on a test server
    that was set up. *)
Theorem optional_calls_need_options (package_t : Type)
    (fails : string -> bool) (suppress : bool) (code : Z)
    (args : @Args package_t) :
  (In "PutFile" (snd (traced_main fails suppress code args [])) ->
   truthy_str (test_launcher_filter_file args) = true)
  /\ (In "GetFile" (snd (traced_main fails suppress code args [])) ->
      truthy_str (test_launcher_summary_output args) = true)
  /\ (In "SetupTestServer" (snd (traced_main fails suppress code args [])) ->
      enable_test_server args = true)
  /\ (In "Stop" (snd (traced_main fails suppress code args [])) ->
      enable_test_server args = true
      /\ In "SetupTestServer" (snd (traced_main fails suppress code args []))
      /\ fails "SetupTestServer" = false).
Proof.
  destruct (trace_facts package_t fails suppress code args)
    as [_ [_ [_ [_ Hopt]]]].
  exact Hopt.
Qed.

(** ** Where the child arguments stand *)

Lemma build_without_child_args (package_t : Type) (args : @Args package_t) :
  build_child_args (without_child_args args) = generated_args args.
Proof.
  rewrite build_child_args_shape.
  change (generated_args (without_child_args args))
    with (generated_args args).
  cbn [without_child_args child_arg child_args unwrap_list app].
  now rewrite app_nil_r.
Qed.

(** X9: the arguments that the options of the runner give rise to come
    first, then the values of [--child-arg], then the positional child
    arguments; the filter file argument, when there is one, is added after
    all of them. *)
Theorem user_child_args_last (package_t : Type) (args : @Args package_t) :
  build_child_args args
  = (build_child_args (without_child_args args)
       ++ unwrap_list (child_arg args) ++ child_args args)%list
  /\ run_child_args args
     = (build_child_args args
          ++ opt (truthy_str (test_launcher_filter_file args))
               ["--test-launcher-filter-file=/data/test_filter.txt"])%list.
Proof.
  split.
  - rewrite build_without_child_args. apply build_child_args_shape.
  - unfold run_child_args. apply if_list_append.
Qed.

Lemma In_opt (x : string) (c : bool) (l : list string) :
  In x (opt c l) -> c = true /\ In x l.
Proof. destruct c; cbn; [auto|intros []]. Qed.

Ltac no_such_argument H :=
  unfold generated_args in H;
  repeat (apply in_app_or in H; destruct H as [H|H]);
  try (apply In_opt in H; destruct H as [? H]);
  cbn in H;
  repeat (destruct H as [H|H]; [try discriminate H|]);
  try contradiction; try congruence.

Lemma infix_app_l (a l m : list string) :
  (exists pre post, l = (pre ++ m ++ post)%list) ->
  exists pre post, (a ++ l)%list = (pre ++ m ++ post)%list.
Proof.
  intros [pre [post ->]]. exists (a ++ pre)%list, post.
  now rewrite <- app_assoc.
Qed.

Lemma infix_here (m rest : list string) :
  exists pre post, (m ++ rest)%list = (pre ++ m ++ post)%list.
Proof. exists [], rest. reflexivity. Qed.

(** X10: with a repeat value that is not empty, the child arguments hold
    "--gtest_repeat=" with that value and, right after it,
    "--test-launcher-timeout=-1"; without one, the runner does not add the
    timeout argument. *)
Theorem repeat_disables_timeout (package_t : Type) (args : @Args package_t) :
  (forall v,
     gtest_repeat args = Some v -> v <> "" ->
     exists pre post,
       build_child_args args
       = (pre ++ [("--gtest_repeat=" ++ v)%string;
                  "--test-launcher-timeout=-1"] ++ post)%list)
  /\ (gtest_repeat args = None \/ gtest_repeat args = Some "" ->
      ~ In "--test-launcher-timeout=-1"
          (build_child_args (without_child_args args))).
Proof.
  split.
  - intros v Hv Hne. rewrite build_child_args_shape. unfold generated_args.
    rewrite Hv. cbn [truthy_str unwrap_str].
    apply String.eqb_neq in Hne. rewrite Hne. cbn [negb opt].
    rewrite <- !app_assoc. do 6 apply infix_app_l. apply infix_here.
  - intros Hnone H. rewrite build_without_child_args in H.
    assert (Hfalse : truthy_str (gtest_repeat args) = false)
      by (destruct Hnone as [-> | ->]; reflexivity).
    no_such_argument H.
Qed.

Lemma count_with_prefix_app (pre : string) (l l' : list string) :
  count_with_prefix pre (l ++ l')
  = (count_with_prefix pre l + count_with_prefix pre l')%nat.
Proof.
  unfold count_with_prefix. now rewrite filter_app, length_app.
Qed.

Lemma count_with_prefix_opt (pre : string) (c : bool) (l : list string) :
  count_with_prefix pre l = 0%nat -> count_with_prefix pre (opt c l) = 0%nat.
Proof. destruct c; auto. Qed.

Lemma test_concurrency_not_zero (package_t : Type) (args : @Args package_t) :
  test_concurrency args <> 0.
Proof.
  unfold test_concurrency, truthy_int.
  destruct (test_launcher_jobs args) as [n|]; [|discriminate].
  destruct (Z.eqb_spec n 0); cbn; [discriminate|assumption].
Qed.

(** X11: the options of the runner give rise to exactly one argument that
    starts with "--test-launcher-jobs=", whatever they are, and the number
    of jobs it carries is never 0. *)
Theorem one_jobs_argument (package_t : Type) (args : @Args package_t) :
  count_with_prefix "--test-launcher-jobs="
    (build_child_args (without_child_args args)) = 1%nat
  /\ test_concurrency args <> 0
  /\ count_with_prefix "--test-launcher-jobs=" (build_child_args args)
     = S (count_with_prefix "--test-launcher-jobs="
            (unwrap_list (child_arg args) ++ child_args args)).
Proof.
  assert (Hgen : count_with_prefix "--test-launcher-jobs="
                   (generated_args args) = 1%nat).
  { unfold generated_args. rewrite !count_with_prefix_app.
    rewrite !count_with_prefix_opt by reflexivity.
    unfold count_with_prefix. cbn [filter].
    rewrite prefix_app. reflexivity. }
  split; [now rewrite build_without_child_args|].
  split; [apply test_concurrency_not_zero|].
  rewrite build_child_args_shape, count_with_prefix_app, Hgen. reflexivity.
Qed.

(** X12: a batch limit of 0 counts as no batch limit: the runner then adds
    no argument that starts with "--test-launcher-batch-limit="; any other
    value is handed on in one. *)
Theorem batch_limit_zero_is_absent (package_t : Type)
    (args : @Args package_t) :
  (test_launcher_batch_limit args = None
   \/ test_launcher_batch_limit args = Some 0 ->
   count_with_prefix "--test-launcher-batch-limit="
     (build_child_args (without_child_args args)) = 0%nat)
  /\ (forall n,
        test_launcher_batch_limit args = Some n -> n <> 0 ->
        In ("--test-launcher-batch-limit=" ++ format_d n)
           (build_child_args args)).
Proof.
  split.
  - intros Hnone. rewrite build_without_child_args.
    assert (Hfalse : truthy_int (test_launcher_batch_limit args) = false)
      by (destruct Hnone as [-> | ->]; reflexivity).
    unfold generated_args. rewrite Hfalse. cbn [opt].
    rewrite !count_with_prefix_app.
    rewrite !count_with_prefix_opt by reflexivity. reflexivity.
  - intros n Hn Hne. rewrite build_child_args_shape. unfold generated_args.
    rewrite Hn. cbn [truthy_int unwrap_int].
    apply Z.eqb_neq in Hne. rewrite Hne. cbn [negb opt].
    rewrite !in_app_iff. left. right. right. right. left. now left.
Qed.
